(** * Safe-Code-Executor: the [/run] endpoint of [app.py]

    A shallow embedding of the Flask view [run_code] and of the Python
    operations it relies on, followed by the properties of the execution
    core: validation, staging, the sandbox launch command, the timeout
    path and the classification of a completed run. *)

From Stdlib Require Import List ZArith NArith Bool Ascii String Lia.
From Stdlib Require Import Floats.SpecFloat.
Import ListNotations.

Set Warnings "-register-all".

(* ===================================================================== *)
(** ** Python strings *)
(* ===================================================================== *)

(** A Python [str] is a sequence of Unicode code points; [len] counts code
    points.  Every literal of [app.py] is ASCII and is written with [lit]. *)
Definition pystr := list N.

Definition lit (s : string) : pystr :=
  List.map N_of_ascii (list_ascii_of_string s).

Definition len (s : pystr) : Z := Z.of_nat (List.length s).

Fixpoint pystr_eqb (a b : pystr) : bool :=
  match a, b with
  | [], [] => true
  | x :: a', y :: b' => N.eqb x y && pystr_eqb a' b'
  | _, _ => false
  end.

(** [s.startswith(p)] *)
Fixpoint startswith (p s : pystr) : bool :=
  match p, s with
  | [], _ => true
  | x :: p', y :: s' => N.eqb x y && startswith p' s'
  | _ :: _, [] => false
  end.

(** [s.endswith(p)] *)
Definition endswith (p s : pystr) : bool := startswith (rev p) (rev s).

(** [p in s]: [p] occurs in [s] as a contiguous run. *)
Fixpoint contains (p s : pystr) : bool :=
  startswith p s ||
  match s with
  | [] => false
  | _ :: s' => contains p s'
  end.

(** [s.lstrip(chars)] and [s.rstrip(chars)], the character set given as a
    predicate on code points. *)
Fixpoint lstrip (chars : N -> bool) (s : pystr) : pystr :=
  match s with
  | [] => []
  | c :: s' => if chars c then lstrip chars s' else s
  end.

Fixpoint rstrip (chars : N -> bool) (s : pystr) : pystr :=
  match s with
  | [] => []
  | c :: s' =>
      match rstrip chars s' with
      | [] => if chars c then [] else [c]
      | r => c :: r
      end
  end.

Definition newline : N := 10%N.

(** [s.rstrip("\n")] *)
Definition rstrip_nl (s : pystr) : pystr := rstrip (N.eqb newline) s.

(** The code points Python's [str.isspace] accepts, which are the ones
    [str.strip()] without argument removes. *)
Definition py_isspace (c : N) : bool :=
  ((9 <=? c) && (c <=? 13) || (28 <=? c) && (c <=? 32)
   || (c =? 133) || (c =? 160) || (c =? 5760)
   || (8192 <=? c) && (c <=? 8202)
   || (c =? 8232) || (c =? 8233) || (c =? 8239) || (c =? 8287)
   || (c =? 12288))%N.

(** [s.strip()] *)
Definition strip (s : pystr) : pystr := rstrip py_isspace (lstrip py_isspace s).

(** A code point the strict UTF-8 codec refuses: a surrogate. *)
Definition is_surrogate (c : N) : bool := ((55296 <=? c) && (c <=? 57343))%N.

Definition utf8_encodable (s : pystr) : bool :=
  forallb (fun c => negb (is_surrogate c)) s.

(** [s[:n]] *)
Definition slice_to (n : nat) (s : pystr) : pystr := firstn n s.

(** [os.path.join(a, b)] on a POSIX host. *)
Definition path_join (a b : pystr) : pystr :=
  if startswith (lit "/") b then b
  else if pystr_eqb a [] || endswith (lit "/") a then a ++ b
  else a ++ lit "/" ++ b.

(* ===================================================================== *)
(** ** Python values *)
(* ===================================================================== *)

(** The values [json.loads] produces and [jsonify] serialises.  A [dict] is
    kept as its items in insertion order, keys pairwise distinct. *)
Inductive pyval : Type :=
| PyNone
| PyBool (b : bool)
| PyInt (z : Z)
| PyFloat (f : spec_float)
| PyStr (s : pystr)
| PyList (l : list pyval)
| PyDict (items : list (pystr * pyval)).

(** Truth value of an object, as [or] tests it. *)
Definition truthy (v : pyval) : bool :=
  match v with
  | PyNone => false
  | PyBool b => b
  | PyInt z => negb (Z.eqb z 0)
  | PyFloat (S754_zero _) => false
  | PyFloat _ => true
  | PyStr s => negb (pystr_eqb s [])
  | PyList l => match l with [] => false | _ => true end
  | PyDict d => match d with [] => false | _ => true end
  end.

(** [a or b] *)
Definition py_or (a b : pyval) : pyval := if truthy a then a else b.

Fixpoint dict_lookup (k : pystr) (d : list (pystr * pyval)) : option pyval :=
  match d with
  | [] => None
  | (k', v) :: d' => if pystr_eqb k k' then Some v else dict_lookup k d'
  end.

(* ===================================================================== *)
(** ** Exceptions, effects and the host *)
(* ===================================================================== *)

(** The exception classes the view can meet.  All of them derive from
    [Exception]; asynchronous interrupts are outside the model. *)
Inductive exn : Type :=
| AttributeError
| UnicodeEncodeError
| UnicodeDecodeError
| RecursionError
| OSError (errno : Z)
| TimeoutExpired
| OtherError (name : pystr).

Definition is_TimeoutExpired (e : exn) : bool :=
  match e with TimeoutExpired => true | _ => false end.

Inductive result (A : Type) : Type :=
| Ok (a : A)
| Raise (e : exn).
Arguments Ok {A} a.
Arguments Raise {A} e.

(** [subprocess.CompletedProcess]: the captured streams and the exit
    status. *)
Record completed : Type := Completed {
  stdout : option pystr;
  stderr : option pystr;
  returncode : Z
}.

(** What the view does to the world outside the process, in order. *)
Inductive event : Type :=
| Makedirs (path : pystr)
| OpenW (path : pystr)
| WriteFile (path : pystr) (data : pystr)
| Run (cmd : list pystr) (timeout : Z).

(** The host the server runs on: how each call into the operating system,
    the random source and the container runtime answers. *)
Record host : Type := Host {
  os_makedirs : pystr -> option exn;
  uuid4_hex : pystr;
  os_open_w : pystr -> option exn;
  os_write : pystr -> pystr -> option exn;
  os_getcwd : result pystr;
  subprocess_run : list pystr -> Z -> result completed
}.

(** Computations that may raise and that log their effects. *)
Definition io (A : Type) : Type := (result A * list event)%type.

Definition ret {A} (a : A) : io A := (Ok a, []).

Definition raise {A} (e : exn) : io A := (Raise e, []).

Definition bind {A B} (m : io A) (k : A -> io B) : io B :=
  match m with
  | (Ok a, t) => let '(r, t') := k a in (r, t ++ t')
  | (Raise e, t) => (Raise e, t)
  end.

(** [try: m except <classes the handler answers>: handler] *)
Definition catch {A} (m : io A) (handler : exn -> option (io A)) : io A :=
  match m with
  | (Ok a, t) => (Ok a, t)
  | (Raise e, t) =>
      match handler e with
      | Some k => let '(r, t') := k in (r, t ++ t')
      | None => (Raise e, t)
      end
  end.

Definition emit (ev : event) (answer : option exn) : io unit :=
  match answer with
  | None => (Ok tt, [ev])
  | Some e => (Raise e, [ev])
  end.

Definition lift {A} (r : result A) : io A := (r, []).

Declare Scope io_scope.
Delimit Scope io_scope with io.
Notation "x <- m ;; k" := (bind m (fun x => k))
  (at level 61, m at next level, right associativity) : io_scope.
Notation "m ;; k" := (bind m (fun _ => k))
  (at level 61, right associativity) : io_scope.
Local Open Scope io_scope.

Definition trace {A} (m : io A) : list event := snd m.
Definition outcome {A} (m : io A) : result A := fst m.

(* ===================================================================== *)
(** ** The view *)
(* ===================================================================== *)

(** A response: the [jsonify]-ed object and the HTTP status. *)
Definition response : Type := (pyval * Z)%type.

Definition jsonify (items : list (pystr * pyval)) : pyval := PyDict items.

(** What [request.get_json(silent=True)] returns, as a Python value: the
    parsed body, [None] when the body is not JSON.  The call does not always
    return: see [get_json] and [post_run] below. *)
Definition get_json_silent (body : option pyval) : pyval :=
  match body with
  | Some v => v
  | None => PyNone
  end.

(** [data.get(key, default)]; only a [dict] has the method. *)
Definition py_get (data : pyval) (key : pystr) (default : pyval) : io pyval :=
  match data with
  | PyDict d =>
      match dict_lookup key d with
      | Some v => ret v
      | None => ret default
      end
  | _ => raise AttributeError
  end.

(** [s or ""] for a captured stream. *)
Definition or_empty (s : option pystr) : pystr :=
  match s with
  | Some x => x
  | None => []
  end.

Definition makedirs (h : host) (path : pystr) : io unit :=
  emit (Makedirs path) (os_makedirs h path).

(** [with open(path, "w", encoding="utf-8") as f: f.write(data)] *)
Definition write_text (h : host) (path data : pystr) : io unit :=
  emit (OpenW path) (os_open_w h path) ;;
  if utf8_encodable data
  then emit (WriteFile path data) (os_write h path data)
  else raise UnicodeEncodeError.

(** [subprocess.run(cmd, ..., timeout=t)] *)
Definition run (h : host) (cmd : list pystr) (timeout : Z) : io completed :=
  match subprocess_run h cmd timeout with
  | Ok p => (Ok p, [Run cmd timeout])
  | Raise e => (Raise e, [Run cmd timeout])
  end.

Definition container_name_of (file_id : pystr) : pystr :=
  lit "runpy-" ++ file_id.

Definition docker_cmd (container_name cwd file_id : pystr) : list pystr :=
  [ lit "docker"; lit "run"; lit "--rm";
    lit "--name"; container_name;
    lit "--network"; lit "none";
    lit "--memory=128m";
    lit "--memory-swap=128m";
    lit "--pids-limit=64";
    lit "--cpus=1";
    lit "-v"; cwd ++ lit "/tmp:/scripts:ro";
    lit "python:3.11-slim";
    lit "python"; lit "/scripts/" ++ file_id ++ lit ".py" ].

Definition rm_cmd (container_name : pystr) : list pystr :=
  [ lit "docker"; lit "rm"; lit "-f"; container_name ].

Definition timeout_message : pystr := lit "Execution timed out after 10 seconds".
Definition oom_message : pystr := lit "Memory limit exceeded (container killed)".

(** The three [return]s after a completed run. *)
Definition classify (proc : completed) : response :=
  let stdout := or_empty (stdout proc) in
  let stderr := or_empty (stderr proc) in
  let rc := returncode proc in
  if (rc =? 0)%Z then
    (jsonify [ (lit "output", PyStr (rstrip_nl stdout));
               (lit "error", PyStr (lit "")) ], 200%Z)
  else if (rc =? 137)%Z || contains (lit "Killed") stderr
          || contains (lit "Out of memory") stderr
          || contains (lit "MemoryError") stderr then
    (jsonify [ (lit "output", PyStr (rstrip_nl stdout));
               (lit "error", PyStr oom_message) ], 200%Z)
  else
    (jsonify [ (lit "output", PyStr (rstrip_nl stdout));
               (lit "error", PyStr (strip stderr));
               (lit "exit_code", PyInt rc) ], 200%Z).

(** The part of [run_code] from the launch on: the guarded
    [subprocess.run], the removal on timeout, the classification. *)
Definition execute (h : host) (cmd : list pystr) (container_name : pystr)
  : io response :=
  r <- catch (proc <- run h cmd 10 ;; ret (inl proc))
         (fun e =>
            if is_TimeoutExpired e then
              Some (catch (run h (rm_cmd container_name) 5 ;; ret tt)
                          (fun _ => Some (ret tt)) ;;
                    ret (inr (jsonify [ (lit "output", PyStr (lit ""));
                                        (lit "error", PyStr timeout_message) ],
                              200%Z)))
            else None) ;;
  match r with
  | inr resp => ret resp
  | inl proc => ret (classify proc)
  end.

Definition run_code (h : host) (body : option pyval) : io response :=
  let data := py_or (get_json_silent body) (PyDict []) in
  code <- py_get data (lit "code") (PyStr (lit "")) ;;
  match code with
  | PyStr code =>
      if (len code >? 5000)%Z then
        ret (jsonify [ (lit "error", PyStr (lit "Code too long (max 5000 chars)")) ],
             400%Z)
      else
        let tmp_folder := lit "tmp" in
        makedirs h tmp_folder ;;
        let file_id := slice_to 12 (uuid4_hex h) in
        let file_path := path_join tmp_folder (file_id ++ lit ".py") in
        write_text h file_path code ;;
        let container_name := container_name_of file_id in
        cwd <- lift (os_getcwd h) ;;
        let cmd := docker_cmd container_name cwd file_id in
        execute h cmd container_name
  | _ =>
      ret (jsonify [ (lit "error", PyStr (lit "code must be a string")) ], 400%Z)
  end.

(** A request, as far as the view looks at it: what the call
    [request.get_json(silent=True)] does.  It returns the parsed body, or
    nothing when the body is not JSON ([silent] hides the parser's
    [ValueError]); any other error met while parsing, such as the
    [RecursionError] of a deeply nested body, leaves the call. *)
Definition request : Type := result (option pyval).

Definition get_json (req : request) : io (option pyval) := lift req.

(** The view on a request: the call of line 15, then [run_code] on what it
    returned. *)
Definition post_run (h : host) (req : request) : io response :=
  body <- get_json req ;;
  run_code h body.

(* ===================================================================== *)
(** ** Reading responses, traces and launch commands *)
(* ===================================================================== *)

(** The four outcomes of an execution.  The response has no field for
    them: an outcome is read off the object's shape, an [exit_code] key for
    a runtime error, otherwise the [error] text. *)
Inductive classification : Type :=
| Success
| Timeout
| MemoryLimitExceeded
| RuntimeError.

Definition classification_of (body : pyval) : option classification :=
  match body with
  | PyDict items =>
      match dict_lookup (lit "output") items, dict_lookup (lit "error") items with
      | Some (PyStr _), Some (PyStr e) =>
          match dict_lookup (lit "exit_code") items with
          | Some (PyInt _) => Some RuntimeError
          | Some _ => None
          | None =>
              if pystr_eqb e (lit "") then Some Success
              else if pystr_eqb e timeout_message then Some Timeout
              else if pystr_eqb e oom_message then Some MemoryLimitExceeded
              else None
          end
      | _, _ => None
      end
  | _ => None
  end.

(** [body[key]], when [body] is an object with that key. *)
Definition field (key : string) (body : pyval) : option pyval :=
  match body with
  | PyDict items => dict_lookup (lit key) items
  | _ => None
  end.

Definition is_run (ev : event) : bool :=
  match ev with Run _ _ => true | _ => false end.

Fixpoint cmd_eqb (a b : list pystr) : bool :=
  match a, b with
  | [], [] => true
  | x :: a', y :: b' => pystr_eqb x y && cmd_eqb a' b'
  | _, _ => false
  end.

Definition is_run_of (cmd : list pystr) (ev : event) : bool :=
  match ev with
  | Run c _ => cmd_eqb c cmd
  | _ => false
  end.

Definition is_docker_run (ev : event) : bool :=
  match ev with
  | Run (a :: b :: _) _ => pystr_eqb a (lit "docker") && pystr_eqb b (lit "run")
  | _ => false
  end.

Definition is_docker_rm (ev : event) : bool :=
  match ev with
  | Run (a :: b :: _) _ => pystr_eqb a (lit "docker") && pystr_eqb b (lit "rm")
  | _ => false
  end.

Definition is_open (ev : event) : bool :=
  match ev with OpenW _ => true | _ => false end.

Definition is_write (ev : event) : bool :=
  match ev with WriteFile _ _ => true | _ => false end.

Definition count (p : event -> bool) (t : list event) : nat :=
  List.length (filter p t).

(** The first subprocess the trace starts. *)
Fixpoint first_run (t : list event) : option (list pystr) :=
  match t with
  | [] => None
  | Run cmd _ :: _ => Some cmd
  | _ :: t' => first_run t'
  end.

(** The options of a [docker run] command line, as the docker client
    reads them: options up to the first word that is not one, which is the
    image; what follows is the command run inside the container. *)
Record launch : Type := Launch {
  auto_remove : bool;
  name : option pystr;
  network : option pystr;
  memory : option pystr;
  memory_swap : option pystr;
  pids_limit : option pystr;
  cpus : option pystr;
  volumes : list pystr;
  image : pystr;
  command : list pystr
}.

Definition no_options : launch :=
  Launch false None None None None None None [] [] [].

Definition value_after (prefix arg : pystr) : option pystr :=
  if startswith prefix arg then Some (skipn (List.length prefix) arg) else None.

Fixpoint parse_options (args : list pystr) (acc : launch) : option launch :=
  match args with
  | [] => None
  | a :: rest =>
      if pystr_eqb a (lit "--rm") then
        parse_options rest
          (Launch true (name acc) (network acc) (memory acc) (memory_swap acc)
                  (pids_limit acc) (cpus acc) (volumes acc) [] [])
      else if pystr_eqb a (lit "--name") then
        match rest with
        | v :: rest' =>
            parse_options rest'
              (Launch (auto_remove acc) (Some v) (network acc) (memory acc)
                      (memory_swap acc) (pids_limit acc) (cpus acc) (volumes acc) [] [])
        | [] => None
        end
      else if pystr_eqb a (lit "--network") then
        match rest with
        | v :: rest' =>
            parse_options rest'
              (Launch (auto_remove acc) (name acc) (Some v) (memory acc)
                      (memory_swap acc) (pids_limit acc) (cpus acc) (volumes acc) [] [])
        | [] => None
        end
      else if pystr_eqb a (lit "-v") then
        match rest with
        | v :: rest' =>
            parse_options rest'
              (Launch (auto_remove acc) (name acc) (network acc) (memory acc)
                      (memory_swap acc) (pids_limit acc) (cpus acc)
                      (volumes acc ++ [v]) [] [])
        | [] => None
        end
      else
        match value_after (lit "--memory=") a, value_after (lit "--memory-swap=") a,
              value_after (lit "--pids-limit=") a, value_after (lit "--cpus=") a with
        | Some v, _, _, _ =>
            parse_options rest
              (Launch (auto_remove acc) (name acc) (network acc) (Some v)
                      (memory_swap acc) (pids_limit acc) (cpus acc) (volumes acc) [] [])
        | _, Some v, _, _ =>
            parse_options rest
              (Launch (auto_remove acc) (name acc) (network acc) (memory acc)
                      (Some v) (pids_limit acc) (cpus acc) (volumes acc) [] [])
        | _, _, Some v, _ =>
            parse_options rest
              (Launch (auto_remove acc) (name acc) (network acc) (memory acc)
                      (memory_swap acc) (Some v) (cpus acc) (volumes acc) [] [])
        | _, _, _, Some v =>
            parse_options rest
              (Launch (auto_remove acc) (name acc) (network acc) (memory acc)
                      (memory_swap acc) (pids_limit acc) (Some v) (volumes acc) [] [])
        | None, None, None, None =>
            if startswith (lit "-") a then None
            else
              Some (Launch (auto_remove acc) (name acc) (network acc) (memory acc)
                           (memory_swap acc) (pids_limit acc) (cpus acc)
                           (volumes acc) a rest)
        end
  end.

Definition parse_docker_run (cmd : list pystr) : option launch :=
  match cmd with
  | a :: b :: args =>
      if pystr_eqb a (lit "docker") && pystr_eqb b (lit "run")
      then parse_options args no_options
      else None
  | _ => None
  end.

(* ===================================================================== *)
(** ** The terms of the statements *)
(* ===================================================================== *)

(** What the view takes as the submitted code: [data.get("code", "")] on
    the parsed body. *)
Definition submitted (body : option pyval) : result pyval :=
  outcome (py_get (py_or (get_json_silent body) (PyDict []))
                  (lit "code") (PyStr (lit ""))).

(** A valid request: the submitted code is a string of at most 5000
    characters. *)
Definition accepted (body : option pyval) (code : pystr) : Prop :=
  submitted body = Ok (PyStr code) /\ (len code <= 5000)%Z.

(** The token of a request, the path of its artifact and its launch
    command, as [run_code] builds them on the host [h]. *)
Definition file_id_of (h : host) : pystr := slice_to 12 (uuid4_hex h).

Definition file_path_of (h : host) : pystr :=
  path_join (lit "tmp") (file_id_of h ++ lit ".py").

Definition launch_cmd (h : host) (cwd : pystr) : list pystr :=
  docker_cmd (container_name_of (file_id_of h)) cwd (file_id_of h).

(** Staging succeeds: the directory, the file and the write raise nothing,
    and the working directory can be read for the mount. *)
Definition staged (h : host) (code cwd : pystr) : Prop :=
  os_makedirs h (lit "tmp") = None /\
  os_open_w h (file_path_of h) = None /\
  utf8_encodable code = true /\
  os_write h (file_path_of h) code = None /\
  os_getcwd h = Ok cwd.

(** The effects of a successful staging, in order. *)
Definition staging_trace (h : host) (code : pystr) : list event :=
  [ Makedirs (lit "tmp"); OpenW (file_path_of h); WriteFile (file_path_of h) code ].

(** The answer of the [except subprocess.TimeoutExpired] branch. *)
Definition timeout_response : response :=
  (jsonify [ (lit "output", PyStr (lit "")); (lit "error", PyStr timeout_message) ],
   200%Z).

(** A completed execution: a valid request, staged, whose launch returned
    before the deadline with the process [proc]. *)
Definition completed_run (h : host) (body : option pyval) (code cwd : pystr)
    (proc : completed) : Prop :=
  accepted body code /\ staged h code cwd /\
  subprocess_run h (launch_cmd h cwd) 10 = Ok proc.

(** An expired execution: a valid request, staged, whose launch was still
    running at the deadline. *)
Definition expired_run (h : host) (body : option pyval) (code cwd : pystr) : Prop :=
  accepted body code /\ staged h code cwd /\
  subprocess_run h (launch_cmd h cwd) 10 = Raise TimeoutExpired.

(** 128 + 9, the exit status of a process killed by [SIGKILL]. *)
Definition oom_exit_code : Z := 137.

Definition oom_markers : list pystr :=
  [ lit "Killed"; lit "Out of memory"; lit "MemoryError" ].

(** The out-of-memory test of the second [if]: the exit code of a process
    killed by signal 9, or a marker in the error stream. *)
Definition oom_signalled (rc : Z) (err : pystr) : bool :=
  (rc =? oom_exit_code)%Z || existsb (fun m => contains m err) oom_markers.

(** [out] is [s] without the line feeds at its end. *)
Definition newline_trimmed (s out : pystr) : Prop :=
  (exists k, s = out ++ repeat newline k) /\
  (forall r c, out = r ++ [c] -> c <> newline).

(** [out] is [s] without the white space at its two ends. *)
Definition whitespace_trimmed (s out : pystr) : Prop :=
  exists hd tl,
    s = hd ++ out ++ tl /\
    forallb py_isspace hd = true /\ forallb py_isspace tl = true /\
    (forall c r, out = c :: r -> py_isspace c = false) /\
    (forall c r, out = r ++ [c] -> py_isspace c = false).

(** Hosts and requests to run the view on: every system call succeeds, the
    token is fixed, and [answer] stands for the container runtime. *)
Definition demo_uuid : pystr := lit "0123456789abcdef0123456789abcdef".

Definition demo_host (answer : list pystr -> Z -> result completed) : host :=
  Host (fun _ => None) demo_uuid (fun _ => None) (fun _ _ => None)
       (Ok (lit "/srv/app")) answer.

Definition demo_body (code : pystr) : option pyval :=
  Some (PyDict [ (lit "code", PyStr code) ]).

(** A runtime under which every command ends with the given streams and
    exit code, and one under which [docker run] outlives its deadline and
    every other command cannot be started. *)
Definition exits (out err : pystr) (rc : Z) : list pystr -> Z -> result completed :=
  fun _ _ => Ok (Completed (Some out) (Some err) rc).

Definition hangs : list pystr -> Z -> result completed :=
  fun cmd _ =>
    match cmd with
    | _ :: verb :: _ =>
        if pystr_eqb verb (lit "run") then Raise TimeoutExpired
        else Raise (OSError 2)
    | _ => Raise (OSError 2)
    end.

(** A host whose file system is read-only: [makedirs] fails with [EROFS]. *)
Definition read_only_host : host :=
  Host (fun _ => Some (OSError 30)) demo_uuid (fun _ => Some (OSError 30))
       (fun _ _ => Some (OSError 30)) (Ok (lit "/srv/app")) (exits [] [] 0).

(** A program of 5001 characters. *)
Definition long_code : pystr := repeat 97%N (Z.to_nat 5001).

(** The submitted values the two validation tests turn away. *)
Definition rejected (v : pyval) : Prop :=
  match v with
  | PyStr s => (5000 < len s)%Z
  | _ => True
  end.

(** An answer that carries only an [error] message. *)
Definition error_response (msg : pystr) (status : Z) : response :=
  (jsonify [ (lit "error", PyStr msg) ], status).

(** The bodies for which [data.get("code", "")] falls back on its default:
    no JSON at all, a JSON value that is false in a condition (so that
    [or {}] replaces it), or an object without the key. *)
Definition defaults_to_empty (body : option pyval) : Prop :=
  match body with
  | None => True
  | Some (PyDict d) => dict_lookup (lit "code") d = None
  | Some v => truthy v = false
  end.

(** A body with a ["code"] member. *)
Definition has_code_field (body : option pyval) : bool :=
  match body with
  | Some (PyDict d) =>
      match dict_lookup (lit "code") d with Some _ => true | None => false end
  | _ => false
  end.

(** The message of each of the two validation tests. *)
Definition validation_message (v : pyval) : pystr :=
  match v with
  | PyStr _ => lit "Code too long (max 5000 chars)"
  | _ => lit "code must be a string"
  end.

(** A digit of [uuid.UUID.hex]: [0-9a-f]. *)
Definition is_hex_digit (c : N) : bool :=
  ((48 <=? c) && (c <=? 57) || (97 <=? c) && (c <=? 102))%N.

(** What [uuid.uuid4().hex] is on a real host: 32 hexadecimal digits. *)
Definition well_formed_token (h : host) : Prop :=
  List.length (uuid4_hex h) = 32 /\ forallb is_hex_digit (uuid4_hex h) = true.

(** [t] is a beginning of [full]. *)
Definition prefix_of (t full : list event) : Prop :=
  exists rest, full = t ++ rest.

(** Every effect a request for [code] can have on [h], in order. *)
Definition full_trace (h : host) (code : pystr) : list event :=
  staging_trace h code ++
  match os_getcwd h with
  | Ok cwd => [ Run (launch_cmd h cwd) 10%Z;
                Run (rm_cmd (container_name_of (file_id_of h))) 5%Z ]
  | Raise _ => []
  end.

(** A text with no white space at either end. *)
Definition no_edge_space (e : pystr) : Prop :=
  (forall c r, e = c :: r -> py_isspace c = false) /\
  (forall c r, e = r ++ [c] -> py_isspace c = false).

(** The same, as a test. *)
Definition edges_kept (e : pystr) : bool :=
  match e with
  | [] => true
  | c :: _ => negb (py_isspace c) && negb (py_isspace (last e c))
  end.

(** A runtime whose captured output is not valid UTF-8: with [text=True]
    the decoding inside [subprocess.run] raises. *)
Definition undecodable_output : list pystr -> Z -> result completed :=
  fun _ _ => Raise UnicodeDecodeError.

(** A runtime that cannot be started at all: no [docker] on the path. *)
Definition docker_missing : list pystr -> Z -> result completed :=
  fun _ _ => Raise (OSError 2).

(** The ways through [run_code], each with the answer and the effects it
    ends with: the failed [get], the two rejections, the five failures of
    staging, and the three ends of the launch. *)
Inductive run_code_path (h : host) (body : option pyval) : io response -> Prop :=
| path_no_get e :
    submitted body = Raise e ->
    run_code_path h body (Raise e, [])
| path_rejected v :
    submitted body = Ok v -> rejected v ->
    run_code_path h body (Ok (error_response (validation_message v) 400), [])
| path_makedirs_fails code e :
    accepted body code ->
    os_makedirs h (lit "tmp") = Some e ->
    run_code_path h body (Raise e, [ Makedirs (lit "tmp") ])
| path_open_fails code e :
    accepted body code ->
    os_makedirs h (lit "tmp") = None ->
    os_open_w h (file_path_of h) = Some e ->
    run_code_path h body (Raise e, [ Makedirs (lit "tmp"); OpenW (file_path_of h) ])
| path_encode_fails code :
    accepted body code ->
    os_makedirs h (lit "tmp") = None ->
    os_open_w h (file_path_of h) = None ->
    utf8_encodable code = false ->
    run_code_path h body
      (Raise UnicodeEncodeError, [ Makedirs (lit "tmp"); OpenW (file_path_of h) ])
| path_write_fails code e :
    accepted body code ->
    os_makedirs h (lit "tmp") = None ->
    os_open_w h (file_path_of h) = None ->
    utf8_encodable code = true ->
    os_write h (file_path_of h) code = Some e ->
    run_code_path h body (Raise e, staging_trace h code)
| path_getcwd_fails code e :
    accepted body code ->
    os_makedirs h (lit "tmp") = None ->
    os_open_w h (file_path_of h) = None ->
    utf8_encodable code = true ->
    os_write h (file_path_of h) code = None ->
    os_getcwd h = Raise e ->
    run_code_path h body (Raise e, staging_trace h code)
| path_completed code cwd proc :
    completed_run h body code cwd proc ->
    run_code_path h body
      (Ok (classify proc), staging_trace h code ++ [ Run (launch_cmd h cwd) 10%Z ])
| path_expired code cwd :
    expired_run h body code cwd ->
    run_code_path h body
      (Ok timeout_response,
       staging_trace h code
       ++ [ Run (launch_cmd h cwd) 10%Z;
            Run (rm_cmd (container_name_of (file_id_of h))) 5%Z ])
| path_launch_fails code cwd e :
    accepted body code -> staged h code cwd ->
    subprocess_run h (launch_cmd h cwd) 10 = Raise e ->
    is_TimeoutExpired e = false ->
    run_code_path h body
      (Raise e, staging_trace h code ++ [ Run (launch_cmd h cwd) 10%Z ]).

(* ===================================================================== *)
(** ** Facts about the string operations *)
(* ===================================================================== *)

Lemma pystr_eqb_eq (a b : pystr) : pystr_eqb a b = true <-> a = b.
Proof.
  revert b; induction a as [|x a IH]; intros [|y b]; simpl;
    try (split; [discriminate | congruence]); try tauto.
  rewrite andb_true_iff, N.eqb_eq, IH.
  split; [intros [-> ->]; reflexivity | intros H; inversion H; auto].
Qed.

Lemma pystr_eqb_refl (a : pystr) : pystr_eqb a a = true.
Proof. apply pystr_eqb_eq; reflexivity. Qed.

Lemma cmd_eqb_eq (a b : list pystr) : cmd_eqb a b = true <-> a = b.
Proof.
  revert b; induction a as [|x a IH]; intros [|y b]; simpl;
    try (split; [discriminate | congruence]); try tauto.
  rewrite andb_true_iff, pystr_eqb_eq, IH.
  split; [intros [-> ->]; reflexivity | intros H; inversion H; auto].
Qed.

Lemma startswith_spec (p s : pystr) :
  startswith p s = true <-> exists post, s = p ++ post.
Proof.
  revert s; induction p as [|x p IH]; intros s; simpl.
  - split; [intros _; exists s; reflexivity | reflexivity].
  - destruct s as [|y s].
    + split; [discriminate | intros [post H]; discriminate].
    + rewrite andb_true_iff, N.eqb_eq, IH. split.
      * intros [-> [post ->]]. exists post; reflexivity.
      * intros [post H]. inversion H; subst. split; [reflexivity | eauto].
Qed.

(** [p in s] holds exactly when [s] splits around a copy of [p]. *)
Lemma contains_spec (p s : pystr) :
  contains p s = true <-> exists pre post, s = pre ++ p ++ post.
Proof.
  induction s as [|c s IH].
  - simpl. rewrite orb_false_r, startswith_spec. split.
    + intros [post H]. exists [], post. exact H.
    + intros [pre [post H]]. destruct pre; [eauto|discriminate].
  - cbn [contains]. rewrite orb_true_iff, startswith_spec, IH. split.
    + intros [[post H] | [pre [post H]]].
      * exists [], post. exact H.
      * exists (c :: pre), post. rewrite H. reflexivity.
    + intros [[|x pre] [post H]].
      * left. exists post. exact H.
      * right. inversion H; subst. eauto.
Qed.

Section Strip.
Variable chars : N -> bool.

(** [rstrip] removes a run of stripped characters at the end... *)
Lemma rstrip_split (s : pystr) :
  exists tl, s = rstrip chars s ++ tl /\ forallb chars tl = true.
Proof.
  induction s as [|c s [tl [Hs Htl]]]; simpl.
  - exists []. auto.
  - destruct (rstrip chars s) as [|d r] eqn:E.
    + destruct (chars c) eqn:Hc.
      * exists (c :: s). split; [reflexivity|].
        simpl in Hs; subst tl. simpl. rewrite Hc. exact Htl.
      * exists tl. simpl in *. subst; auto.
    + exists tl. split; [|exact Htl]. simpl. f_equal. exact Hs.
Qed.

(** ...and what is left ends with a character that is kept. *)
Lemma rstrip_last (s r : pystr) (c : N) :
  rstrip chars s = r ++ [c] -> chars c = false.
Proof.
  revert r; induction s as [|x s IH]; intros r; simpl.
  - destruct r; discriminate.
  - destruct (rstrip chars s) as [|d q] eqn:E.
    + destruct (chars x) eqn:Hx.
      * destruct r; discriminate.
      * intros H. destruct r as [|y [|z r]]; inversion H; subst; auto.
    + intros H. destruct r as [|y r].
      * inversion H.
      * inversion H; subst. eapply IH. eassumption.
Qed.

Lemma lstrip_split (s : pystr) :
  exists hd, s = hd ++ lstrip chars s /\ forallb chars hd = true.
Proof.
  induction s as [|c s [hd [Hs Hhd]]]; simpl.
  - exists []. auto.
  - destruct (chars c) eqn:Hc.
    + exists (c :: hd). simpl. rewrite Hc. split; [f_equal; exact Hs | exact Hhd].
    + exists []. auto.
Qed.

Lemma lstrip_first (s r : pystr) (c : N) :
  lstrip chars s = c :: r -> chars c = false.
Proof.
  induction s as [|x s IH]; simpl; [discriminate|].
  destruct (chars x) eqn:Hx; [exact IH|].
  intros H; inversion H; subst; exact Hx.
Qed.

Lemma rstrip_keeps_first (s : pystr) (c : N) :
  chars c = false -> rstrip chars (c :: s) = c :: rstrip chars s.
Proof.
  intros Hc. simpl. destruct (rstrip chars s); [rewrite Hc|]; reflexivity.
Qed.
End Strip.

(** The result of [strip] is the middle of the string, between two runs
    of white space, and neither starts nor ends with white space. *)
Lemma strip_spec (s : pystr) : whitespace_trimmed s (strip s).
Proof.
  unfold whitespace_trimmed, strip.
  destruct (lstrip_split py_isspace s) as [hd [Hs Hhd]].
  destruct (rstrip_split py_isspace (lstrip py_isspace s)) as [tl [Hl Htl]].
  exists hd, tl. repeat split; auto.
  - rewrite <- Hl. exact Hs.
  - intros c r H.
    destruct (lstrip py_isspace s) as [|x q] eqn:E; [discriminate|].
    pose proof (lstrip_first py_isspace s q x E) as Hx.
    rewrite (rstrip_keeps_first py_isspace q x Hx) in H.
    inversion H; subst; exact Hx.
  - intros c r H. eapply rstrip_last; eassumption.
Qed.

(** [rstrip("\n")] drops line feeds at the end, and only those. *)
Lemma rstrip_nl_spec (s : pystr) :
  exists k,
    s = rstrip_nl s ++ repeat newline k /\
    (forall r c, rstrip_nl s = r ++ [c] -> c <> newline).
Proof.
  destruct (rstrip_split (N.eqb newline) s) as [tl [Hs Htl]].
  exists (List.length tl). split.
  - replace (repeat newline (List.length tl)) with tl; [exact Hs|].
    clear Hs. induction tl as [|c tl IH]; [reflexivity|].
    cbn [forallb] in Htl. apply andb_true_iff in Htl as [Hc Htl].
    apply N.eqb_eq in Hc. subst c. cbn [List.length repeat]. f_equal. auto.
  - intros r c H Hc. apply rstrip_last in H. subst c.
    rewrite N.eqb_refl in H. discriminate.
Qed.

(** The operations on the inputs the service meets. *)
Example rstrip_nl_print : rstrip_nl (lit "hello" ++ [newline]) = lit "hello".
Proof. reflexivity. Qed.

Example rstrip_nl_blank_lines :
  rstrip_nl (lit "a" ++ [newline] ++ lit "b" ++ [newline; newline])
  = lit "a" ++ [newline] ++ lit "b".
Proof. reflexivity. Qed.

Example strip_traceback :
  strip ([32; 9]%N ++ lit "NameError: x" ++ [32; 13; 10]%N) = lit "NameError: x".
Proof. reflexivity. Qed.

Example contains_killed :
  contains (lit "Killed") (lit "bash: line 1:  7 Killed  python") = true.
Proof. reflexivity. Qed.

Example contains_is_case_sensitive :
  contains (lit "Killed") (lit "process was killed") = false.
Proof. reflexivity. Qed.

Example path_join_artifact :
  path_join (lit "tmp") (lit "0123456789ab.py") = lit "tmp/0123456789ab.py".
Proof. reflexivity. Qed.

Example empty_object_is_false : py_or (PyList []) (PyDict []) = PyDict [].
Proof. reflexivity. Qed.

(* ===================================================================== *)
(** ** The stages of a request *)
(* ===================================================================== *)

Lemma py_get_pure (data : pyval) (key : pystr) (default : pyval) :
  py_get data key default = (outcome (py_get data key default), []).
Proof.
  destruct data; try reflexivity.
  simpl. destruct (dict_lookup key items); reflexivity.
Qed.

Lemma execute_completed (h : host) (cmd : list pystr) (cname : pystr) (proc : completed) :
  subprocess_run h cmd 10 = Ok proc ->
  execute h cmd cname = (Ok (classify proc), [Run cmd 10%Z]).
Proof.
  intros H. unfold execute, run. rewrite H. reflexivity.
Qed.

Lemma execute_timeout (h : host) (cmd : list pystr) (cname : pystr) :
  subprocess_run h cmd 10 = Raise TimeoutExpired ->
  execute h cmd cname
  = (Ok timeout_response, [Run cmd 10%Z; Run (rm_cmd cname) 5%Z]).
Proof.
  intros H. unfold execute, run. rewrite H.
  destruct (subprocess_run h (rm_cmd cname) 5); reflexivity.
Qed.

Lemma execute_raise (h : host) (cmd : list pystr) (cname : pystr) (e : exn) :
  subprocess_run h cmd 10 = Raise e -> is_TimeoutExpired e = false ->
  execute h cmd cname = (Raise e, [Run cmd 10%Z]).
Proof.
  intros H He. unfold execute, run. rewrite H. simpl. rewrite He. reflexivity.
Qed.

(** A valid request whose staging succeeds goes through the three staging
    effects and then into [execute]. *)
Lemma run_code_executes (h : host) (body : option pyval) (code cwd : pystr) :
  accepted body code -> staged h code cwd ->
  run_code h body
  = (outcome (execute h (launch_cmd h cwd) (container_name_of (file_id_of h))),
     staging_trace h code
     ++ trace (execute h (launch_cmd h cwd) (container_name_of (file_id_of h)))).
Proof.
  intros [Hsub Hlen] (Hmk & Hop & Henc & Hwr & Hcwd).
  unfold run_code. rewrite py_get_pure. fold (submitted body). rewrite Hsub.
  cbn [bind].
  assert (Hgt : (len code >? 5000)%Z = false)
    by (rewrite Z.gtb_ltb; apply Z.ltb_ge; exact Hlen).
  rewrite Hgt.
  unfold makedirs, write_text. rewrite Hmk. cbn [emit bind].
  fold (file_id_of h). fold (file_path_of h).
  rewrite Hop, Henc, Hwr, Hcwd. cbn [emit bind lift].
  fold (launch_cmd h cwd).
  destruct (execute h (launch_cmd h cwd) (container_name_of (file_id_of h))) as [r t].
  reflexivity.
Qed.

Lemma run_code_completed h body code cwd proc :
  completed_run h body code cwd proc ->
  run_code h body
  = (Ok (classify proc), staging_trace h code ++ [Run (launch_cmd h cwd) 10%Z]).
Proof.
  intros (Ha & Hs & Hr).
  rewrite (run_code_executes h body code cwd Ha Hs).
  rewrite (execute_completed h _ _ proc Hr). reflexivity.
Qed.

Lemma run_code_expired h body code cwd :
  expired_run h body code cwd ->
  run_code h body
  = (Ok timeout_response,
     staging_trace h code
     ++ [Run (launch_cmd h cwd) 10%Z;
         Run (rm_cmd (container_name_of (file_id_of h))) 5%Z]).
Proof.
  intros (Ha & Hs & Hr).
  rewrite (run_code_executes h body code cwd Ha Hs).
  rewrite (execute_timeout h _ _ Hr). reflexivity.
Qed.

(** A whole request: [print('hello')] on a host where all goes well. *)
Example run_code_hello :
  run_code (demo_host (exits (lit "hello" ++ [newline]) [] 0))
           (demo_body (lit "print('hello')"))
  = (Ok (jsonify [ (lit "output", PyStr (lit "hello")); (lit "error", PyStr []) ],
         200%Z),
     [ Makedirs (lit "tmp");
       OpenW (lit "tmp/0123456789ab.py");
       WriteFile (lit "tmp/0123456789ab.py") (lit "print('hello')");
       Run [ lit "docker"; lit "run"; lit "--rm";
             lit "--name"; lit "runpy-0123456789ab";
             lit "--network"; lit "none";
             lit "--memory=128m"; lit "--memory-swap=128m";
             lit "--pids-limit=64"; lit "--cpus=1";
             lit "-v"; lit "/srv/app/tmp:/scripts:ro";
             lit "python:3.11-slim";
             lit "python"; lit "/scripts/0123456789ab.py" ] 10%Z ]).
Proof. reflexivity. Qed.

(** A request whose program never ends: the removal cannot even be
    started, and the answer is the timeout all the same. *)
Example run_code_hangs :
  run_code (demo_host hangs) (demo_body (lit "while True: pass"))
  = (Ok timeout_response,
     [ Makedirs (lit "tmp");
       OpenW (lit "tmp/0123456789ab.py");
       WriteFile (lit "tmp/0123456789ab.py") (lit "while True: pass");
       Run (launch_cmd (demo_host hangs) (lit "/srv/app")) 10%Z;
       Run [ lit "docker"; lit "rm"; lit "-f"; lit "runpy-0123456789ab" ] 5%Z ]).
Proof. reflexivity. Qed.

(* ===================================================================== *)
(** ** Classification of a completed run *)
(* ===================================================================== *)

Lemma rstrip_nl_trimmed (s : pystr) : newline_trimmed s (rstrip_nl s).
Proof.
  destruct (rstrip_nl_spec s) as [k [H1 H2]]. split; [exists k; exact H1 | exact H2].
Qed.

Lemma classify_zero (proc : completed) :
  returncode proc = 0%Z ->
  classify proc
  = (jsonify [ (lit "output", PyStr (rstrip_nl (or_empty (stdout proc))));
               (lit "error", PyStr (lit "")) ], 200%Z).
Proof. intros H. unfold classify. rewrite H. reflexivity. Qed.

Lemma classify_oom (proc : completed) :
  returncode proc <> 0%Z ->
  oom_signalled (returncode proc) (or_empty (stderr proc)) = true ->
  classify proc
  = (jsonify [ (lit "output", PyStr (rstrip_nl (or_empty (stdout proc))));
               (lit "error", PyStr oom_message) ], 200%Z).
Proof.
  intros Hrc Hoom. unfold classify.
  apply Z.eqb_neq in Hrc. rewrite Hrc.
  unfold oom_signalled, oom_markers, oom_exit_code in Hoom. cbn [existsb] in Hoom.
  rewrite orb_false_r, !orb_assoc in Hoom. rewrite Hoom. reflexivity.
Qed.

Lemma classify_other (proc : completed) :
  returncode proc <> 0%Z ->
  oom_signalled (returncode proc) (or_empty (stderr proc)) = false ->
  classify proc
  = (jsonify [ (lit "output", PyStr (rstrip_nl (or_empty (stdout proc))));
               (lit "error", PyStr (strip (or_empty (stderr proc))));
               (lit "exit_code", PyInt (returncode proc)) ], 200%Z).
Proof.
  intros Hrc Hoom. unfold classify.
  apply Z.eqb_neq in Hrc. rewrite Hrc.
  unfold oom_signalled, oom_markers, oom_exit_code in Hoom. cbn [existsb] in Hoom.
  rewrite orb_false_r, !orb_assoc in Hoom. rewrite Hoom. reflexivity.
Qed.

(** The outcome read off the response is the branch [classify] took. *)
Lemma classification_of_classify (proc : completed) :
  classification_of (fst (classify proc))
  = Some (if (returncode proc =? 0)%Z then Success
          else if oom_signalled (returncode proc) (or_empty (stderr proc))
               then MemoryLimitExceeded
               else RuntimeError).
Proof.
  destruct (Z.eqb_spec (returncode proc) 0) as [H0 | H0].
  - rewrite (classify_zero proc H0). reflexivity.
  - destruct (oom_signalled (returncode proc) (or_empty (stderr proc))) eqn:E.
    + rewrite (classify_oom proc H0 E). reflexivity.
    + rewrite (classify_other proc H0 E). reflexivity.
Qed.

Lemma classify_status (proc : completed) : snd (classify proc) = 200%Z.
Proof.
  unfold classify.
  destruct (returncode proc =? 0)%Z; [reflexivity|].
  match goal with |- snd (if ?c then _ else _) = _ => destruct c end; reflexivity.
Qed.

Lemma demo_completed (code : string) (out err : pystr) (rc : Z) :
  (len (lit code) <=? 5000)%Z = true ->
  completed_run (demo_host (exits out err rc)) (demo_body (lit code))
                (lit code) (lit "/srv/app") (Completed (Some out) (Some err) rc).
Proof.
  intros Hlen. repeat split; try reflexivity.
  - apply Z.leb_le. exact Hlen.
  - unfold utf8_encodable, lit. rewrite forallb_forall. intros c Hc.
    apply in_map_iff in Hc as [a [<- _]].
    pose proof (N_ascii_bounded a) as Hb. unfold is_surrogate.
    apply negb_true_iff, andb_false_iff. left. apply N.leb_gt. lia.
Qed.

(** C5.  A completed execution with exit code 0 is answered with status
    200 and read as [Success]: [output] is the captured stdout without the
    line feeds at its end ([stdout.rstrip("\n")]), [error] is the empty
    string, and there is no [exit_code]. *)
Theorem exit_zero_is_success h body code cwd proc :
  completed_run h body code cwd proc ->
  returncode proc = 0%Z ->
  exists resp out,
    outcome (run_code h body) = Ok (resp, 200%Z) /\
    classification_of resp = Some Success /\
    field "output" resp = Some (PyStr out) /\
    out = rstrip_nl (or_empty (stdout proc)) /\
    newline_trimmed (or_empty (stdout proc)) out /\
    field "error" resp = Some (PyStr []) /\
    field "exit_code" resp = None.
Proof.
  intros Hrun Hrc.
  rewrite (run_code_completed h body code cwd proc Hrun), (classify_zero proc Hrc).
  eexists; eexists. split; [reflexivity|].
  repeat split; try reflexivity; apply rstrip_nl_trimmed.
Qed.

Lemma exit_zero_is_success_witness :
  exists resp,
    outcome (run_code (demo_host (exits (lit "hello" ++ [newline]) [] 0))
                      (demo_body (lit "print('hello')")))
    = Ok (resp, 200%Z) /\
    classification_of resp = Some Success /\
    field "output" resp = Some (PyStr (lit "hello")) /\
    field "error" resp = Some (PyStr []).
Proof.
  destruct (exit_zero_is_success
              (demo_host (exits (lit "hello" ++ [newline]) [] 0))
              (demo_body (lit "print('hello')"))
              (lit "print('hello')") (lit "/srv/app") _
              (demo_completed "print('hello')" (lit "hello" ++ [newline]) [] 0 eq_refl)
              eq_refl)
    as (resp & out & H1 & H2 & H3 & H4 & _ & H6 & _).
  exists resp. subst out. repeat split; assumption.
Defined.

(** C3, as stated, fails: a run that exits with code 0 is a success even
    when its error stream carries an out-of-memory marker. *)
Lemma oom_marker_with_exit_zero :
  let proc := Completed (Some (lit "done")) (Some (lit "Killed")) 0 in
  completed_run (demo_host (exits (lit "done") (lit "Killed") 0))
                (demo_body (lit "pass")) (lit "pass") (lit "/srv/app") proc /\
  oom_signalled (returncode proc) (or_empty (stderr proc)) = true /\
  outcome (run_code (demo_host (exits (lit "done") (lit "Killed") 0))
                    (demo_body (lit "pass")))
  = Ok (jsonify [ (lit "output", PyStr (lit "done")); (lit "error", PyStr []) ], 200%Z) /\
  classification_of
    (jsonify [ (lit "output", PyStr (lit "done")); (lit "error", PyStr []) ])
  = Some Success.
Proof.
  cbv zeta. split; [apply (demo_completed "pass"); reflexivity|].
  repeat split; reflexivity.
Qed.

(** C3, amended.  A completed execution with a non-zero exit code that is
    the out-of-memory code 137, or whose stderr contains [Killed],
    [Out of memory] or [MemoryError], is answered with status 200 and read
    as [MemoryLimitExceeded]: [output] is the stdout without the line feeds
    at its end, [error] is the fixed message whatever stderr held, and there
    is no [exit_code]. *)
Theorem oom_is_memory_limit_exceeded h body code cwd proc :
  completed_run h body code cwd proc ->
  returncode proc <> 0%Z ->
  (returncode proc = 137%Z \/
   exists marker, In marker oom_markers /\
                  contains marker (or_empty (stderr proc)) = true) ->
  exists resp out,
    outcome (run_code h body) = Ok (resp, 200%Z) /\
    classification_of resp = Some MemoryLimitExceeded /\
    field "output" resp = Some (PyStr out) /\
    out = rstrip_nl (or_empty (stdout proc)) /\
    newline_trimmed (or_empty (stdout proc)) out /\
    field "error" resp = Some (PyStr oom_message) /\
    field "exit_code" resp = None.
Proof.
  intros Hrun Hrc Hoom.
  assert (E : oom_signalled (returncode proc) (or_empty (stderr proc)) = true).
  { unfold oom_signalled. apply orb_true_iff. destruct Hoom as [H | [m [Hin Hm]]].
    - left. apply Z.eqb_eq. exact H.
    - right. apply existsb_exists. exists m. auto. }
  rewrite (run_code_completed h body code cwd proc Hrun), (classify_oom proc Hrc E).
  eexists; eexists. split; [reflexivity|].
  repeat split; try reflexivity; apply rstrip_nl_trimmed.
Qed.

Lemma oom_is_memory_limit_exceeded_witness :
  exists resp,
    outcome (run_code (demo_host (exits (lit "partial" ++ [newline])
                                        (lit "Traceback: MemoryError") 1))
                      (demo_body (lit "x = 'a' * 10**10")))
    = Ok (resp, 200%Z) /\
    classification_of resp = Some MemoryLimitExceeded /\
    field "output" resp = Some (PyStr (lit "partial")) /\
    field "error" resp = Some (PyStr oom_message) /\
    field "exit_code" resp = None.
Proof.
  destruct (oom_is_memory_limit_exceeded
              (demo_host (exits (lit "partial" ++ [newline])
                                (lit "Traceback: MemoryError") 1))
              (demo_body (lit "x = 'a' * 10**10"))
              (lit "x = 'a' * 10**10") (lit "/srv/app") _
              (demo_completed "x = 'a' * 10**10" (lit "partial" ++ [newline])
                              (lit "Traceback: MemoryError") 1 eq_refl))
    as (resp & out & H1 & H2 & H3 & H4 & _ & H6 & H7).
  - simpl. lia.
  - right. exists (lit "MemoryError"). split; [simpl; auto | reflexivity].
  - exists resp. subst out. repeat split; assumption.
Defined.

(** C4.  A completed execution with a non-zero exit code that the
    out-of-memory test does not catch is answered with status 200 and read
    as [RuntimeError]: [output] is the stdout without the line feeds at its
    end, [error] is [stderr.strip()] and [exit_code] is the exit code. *)
Theorem other_nonzero_is_runtime_error h body code cwd proc :
  completed_run h body code cwd proc ->
  returncode proc <> 0%Z ->
  oom_signalled (returncode proc) (or_empty (stderr proc)) = false ->
  exists resp out,
    outcome (run_code h body) = Ok (resp, 200%Z) /\
    classification_of resp = Some RuntimeError /\
    field "output" resp = Some (PyStr out) /\
    out = rstrip_nl (or_empty (stdout proc)) /\
    newline_trimmed (or_empty (stdout proc)) out /\
    field "error" resp = Some (PyStr (strip (or_empty (stderr proc)))) /\
    whitespace_trimmed (or_empty (stderr proc)) (strip (or_empty (stderr proc))) /\
    field "exit_code" resp = Some (PyInt (returncode proc)).
Proof.
  intros Hrun Hrc Hoom.
  rewrite (run_code_completed h body code cwd proc Hrun), (classify_other proc Hrc Hoom).
  eexists; eexists. split; [reflexivity|].
  split; [reflexivity|]. split; [reflexivity|]. split; [reflexivity|].
  split; [apply rstrip_nl_trimmed|]. split; [reflexivity|].
  split; [apply strip_spec | reflexivity].
Qed.

Lemma other_nonzero_is_runtime_error_witness :
  exists resp,
    outcome (run_code (demo_host (exits (lit "step 1" ++ [newline])
                                        (lit "  ZeroDivisionError: division by zero"
                                         ++ [newline]) 1))
                      (demo_body (lit "print('step 1'); 1/0")))
    = Ok (resp, 200%Z) /\
    classification_of resp = Some RuntimeError /\
    field "output" resp = Some (PyStr (lit "step 1")) /\
    field "error" resp = Some (PyStr (lit "ZeroDivisionError: division by zero")) /\
    field "exit_code" resp = Some (PyInt 1).
Proof.
  destruct (other_nonzero_is_runtime_error
              (demo_host (exits (lit "step 1" ++ [newline])
                                (lit "  ZeroDivisionError: division by zero"
                                 ++ [newline]) 1))
              (demo_body (lit "print('step 1'); 1/0"))
              (lit "print('step 1'); 1/0") (lit "/srv/app") _
              (demo_completed "print('step 1'); 1/0" (lit "step 1" ++ [newline])
                              (lit "  ZeroDivisionError: division by zero"
                               ++ [newline]) 1 eq_refl))
    as (resp & out & H1 & H2 & H3 & H4 & _ & H6 & _ & H7).
  - simpl. lia.
  - reflexivity.
  - exists resp. subst out. repeat split; assumption.
Defined.

(** C10.  Exit code 0 comes first: a completed execution with exit code 0
    is read as [Success] whatever its stderr holds, and the response is read
    as [MemoryLimitExceeded] exactly when the exit code is not 0 and the
    out-of-memory test ([137] or a marker in stderr) holds. *)
Theorem exit_zero_precedes_oom_markers h body code cwd proc :
  completed_run h body code cwd proc ->
  exists resp,
    outcome (run_code h body) = Ok (resp, 200%Z) /\
    (returncode proc = 0%Z -> classification_of resp = Some Success) /\
    (classification_of resp = Some MemoryLimitExceeded <->
     returncode proc <> 0%Z /\
     oom_signalled (returncode proc) (or_empty (stderr proc)) = true).
Proof.
  intros Hrun.
  rewrite (run_code_completed h body code cwd proc Hrun).
  exists (fst (classify proc)). split.
  - unfold outcome. cbn [fst]. rewrite <- (classify_status proc).
    destruct (classify proc); reflexivity.
  - rewrite classification_of_classify.
    destruct (Z.eqb_spec (returncode proc) 0) as [H0 | H0].
    + split; [reflexivity|]. split; [discriminate | intros [H _]; contradiction].
    + split; [intros H; contradiction|].
      destruct (oom_signalled (returncode proc) (or_empty (stderr proc))).
      * split; auto.
      * split; [discriminate | intros [_ H]; discriminate].
Qed.

Lemma exit_zero_precedes_oom_markers_witness :
  exists resp,
    outcome (run_code (demo_host (exits (lit "done") (lit "Killed") 0))
                      (demo_body (lit "pass")))
    = Ok (resp, 200%Z) /\
    classification_of resp = Some Success.
Proof.
  destruct (exit_zero_precedes_oom_markers
              (demo_host (exits (lit "done") (lit "Killed") 0))
              (demo_body (lit "pass")) (lit "pass") (lit "/srv/app") _
              (demo_completed "pass" (lit "done") (lit "Killed") 0 eq_refl))
    as (resp & H1 & H2 & _).
  exists resp. split; [exact H1 | apply H2; reflexivity].
Defined.

(* ===================================================================== *)
(** ** Every path through the view *)
(* ===================================================================== *)

Lemma run_code_no_dict h body e :
  submitted body = Raise e -> run_code h body = (Raise e, []).
Proof.
  intros H. unfold run_code. rewrite py_get_pure. fold (submitted body).
  rewrite H. reflexivity.
Qed.

Lemma run_code_rejected h body v :
  submitted body = Ok v -> rejected v ->
  exists msg, run_code h body = (Ok (error_response msg 400), []).
Proof.
  intros H Hrej. unfold run_code. rewrite py_get_pure. fold (submitted body).
  rewrite H. cbn [bind].
  destruct v; try (eexists; reflexivity).
  simpl in Hrej. apply Z.gtb_lt in Hrej. rewrite Hrej. eexists; reflexivity.
Qed.

Lemma accepted_or_rejected body v :
  submitted body = Ok v -> rejected v \/ exists code, v = PyStr code /\ accepted body code.
Proof.
  intros H. destruct v; try (left; exact I).
  destruct (Z.ltb_spec 5000 (len s)) as [Hlt | Hle].
  - left. exact Hlt.
  - right. exists s. split; [reflexivity|]. split; assumption.
Qed.

(** A valid request always starts staging; when staging fails the view
    raises before any subprocess is started. *)
Lemma run_code_staging h body code :
  accepted body code ->
  (exists cwd, staged h code cwd) \/
  (exists e t, run_code h body = (Raise e, Makedirs (lit "tmp") :: t) /\
               forallb (fun ev => negb (is_run ev)) t = true).
Proof.
  intros [Hsub Hlen].
  destruct (os_makedirs h (lit "tmp")) as [e|] eqn:Hmk;
    [|destruct (os_open_w h (file_path_of h)) as [e|] eqn:Hop;
      [|destruct (utf8_encodable code) eqn:Henc;
        [destruct (os_write h (file_path_of h) code) as [e|] eqn:Hwr;
         [|destruct (os_getcwd h) as [cwd|e] eqn:Hcwd]|]]];
    try (left; exists cwd; repeat split; assumption);
    right;
    assert (Hgt : (len code >? 5000)%Z = false)
      by (rewrite Z.gtb_ltb; apply Z.ltb_ge; exact Hlen);
    unfold run_code; rewrite py_get_pure; fold (submitted body); rewrite Hsub;
    cbn [bind]; rewrite Hgt; unfold makedirs, write_text; rewrite Hmk;
    cbn [emit bind]; fold (file_id_of h); fold (file_path_of h);
    try rewrite Hop; cbn [emit bind]; try rewrite Henc; try rewrite Hwr;
    cbn [emit bind raise]; try rewrite Hcwd; cbn [lift bind];
    eexists; eexists; (split; [reflexivity | reflexivity]).
Qed.

Lemma execute_trace h cmd cname :
  trace (execute h cmd cname) = [Run cmd 10%Z] \/
  (subprocess_run h cmd 10 = Raise TimeoutExpired /\
   trace (execute h cmd cname) = [Run cmd 10%Z; Run (rm_cmd cname) 5%Z]).
Proof.
  destruct (subprocess_run h cmd 10) as [proc | e] eqn:E.
  - left. rewrite (execute_completed h cmd cname proc E). reflexivity.
  - destruct (is_TimeoutExpired e) eqn:He.
    + right. destruct e; try discriminate. split; [reflexivity|].
      rewrite (execute_timeout h cmd cname E). reflexivity.
    + left. rewrite (execute_raise h cmd cname e E He). reflexivity.
Qed.

Lemma first_run_no_run (t : list event) :
  forallb (fun ev => negb (is_run ev)) t = true -> first_run t = None.
Proof.
  induction t as [|ev t IH]; [reflexivity|].
  cbn [forallb]. intros H. apply andb_true_iff in H as [Hev Ht].
  destruct ev; try discriminate; simpl; auto.
Qed.

(** The first subprocess of a request, if any, is the launch, and it is
    started only for a valid request whose staging succeeded. *)
Lemma first_run_is_launch h body cmd :
  first_run (trace (run_code h body)) = Some cmd ->
  exists code cwd,
    accepted body code /\ staged h code cwd /\ cmd = launch_cmd h cwd.
Proof.
  intros H.
  destruct (submitted body) as [v | e] eqn:Hsub.
  - destruct (accepted_or_rejected body v Hsub) as [Hrej | [code [-> Hacc]]].
    + destruct (run_code_rejected h body v Hsub Hrej) as [msg Hr].
      rewrite Hr in H. discriminate.
    + destruct (run_code_staging h body code Hacc) as [[cwd Hst] | (e & t & Hr & Ht)].
      * exists code, cwd. split; [exact Hacc|]. split; [exact Hst|].
        rewrite (run_code_executes h body code cwd Hacc Hst) in H.
        unfold trace in H. cbn [snd staging_trace app first_run] in H.
        destruct (execute_trace h (launch_cmd h cwd) (container_name_of (file_id_of h)))
          as [Ht | [_ Ht]]; unfold trace in Ht; rewrite Ht in H;
          simpl in H; congruence.
      * rewrite Hr in H. unfold trace in H. cbn [snd first_run] in H.
        rewrite (first_run_no_run t Ht) in H. discriminate.
  - rewrite (run_code_no_dict h body e Hsub) in H. discriminate.
Qed.

(* ===================================================================== *)
(** ** Validation *)
(* ===================================================================== *)

(** C6.  When the submitted code is not a string, or is a string of more
    than 5000 characters, the view answers with status 400 and an [error]
    message and has no effect at all: no directory is made, no file is
    opened or written, no subprocess is started. *)
Theorem invalid_code_is_rejected_without_effect h body v :
  submitted body = Ok v ->
  rejected v ->
  exists msg,
    outcome (run_code h body) = Ok (error_response msg 400) /\
    trace (run_code h body) = [].
Proof.
  intros Hsub Hrej.
  destruct (run_code_rejected h body v Hsub Hrej) as [msg Hr].
  exists msg. rewrite Hr. split; reflexivity.
Qed.

Lemma invalid_code_is_rejected_without_effect_witness :
  (exists msg,
     outcome (run_code (demo_host hangs) (Some (PyDict [ (lit "code", PyInt 5) ])))
     = Ok (error_response msg 400) /\
     trace (run_code (demo_host hangs) (Some (PyDict [ (lit "code", PyInt 5) ]))) = []) /\
  (exists msg,
     outcome (run_code (demo_host hangs) (demo_body (long_code)))
     = Ok (error_response msg 400) /\
     trace (run_code (demo_host hangs) (demo_body (long_code))) = []).
Proof.
  split.
  - apply (invalid_code_is_rejected_without_effect
             (demo_host hangs) (Some (PyDict [ (lit "code", PyInt 5) ])) (PyInt 5));
      [reflexivity | exact I].
  - apply (invalid_code_is_rejected_without_effect
             (demo_host hangs) (demo_body (long_code))
             (PyStr (long_code)));
      [reflexivity | vm_compute; reflexivity].
Defined.

(** C9.  The code breaks the claim at the body [[1]]: a non-empty JSON
    array has no ["code"] field, yet on every host the view raises
    [AttributeError] at [data.get], without any effect, instead of running
    the empty program; its siblings [[]] and [null], and a body that is not
    JSON, are replaced by [{}] and do default to the empty string. *)
Theorem truthy_non_object_body_is_unhandled h :
  has_code_field (Some (PyList [PyInt 1])) = false /\
  run_code h (Some (PyList [PyInt 1])) = (Raise AttributeError, []) /\
  submitted (Some (PyList [])) = Ok (PyStr []) /\
  submitted (Some PyNone) = Ok (PyStr []) /\
  submitted None = Ok (PyStr []).
Proof. repeat split; reflexivity. Qed.

(** X20.  When [get_json] returns [None] (the body is not JSON), a value
    that counts as false, or an object without a ["code"] key, the
    submitted code is the empty string; it is accepted, so the view is not
    answered by a validation error and starts staging; and when staging
    succeeds the empty artifact is written and the sandbox is launched on
    it. *)
Theorem missing_code_defaults_to_empty h body :
  defaults_to_empty body ->
  submitted body = Ok (PyStr []) /\
  accepted body [] /\
  (forall msg, outcome (run_code h body) <> Ok (error_response msg 400)) /\
  (exists t, trace (run_code h body) = Makedirs (lit "tmp") :: t) /\
  (forall cwd, staged h [] cwd ->
     exists t,
       trace (run_code h body)
       = [ Makedirs (lit "tmp"); OpenW (file_path_of h);
           WriteFile (file_path_of h) []; Run (launch_cmd h cwd) 10%Z ] ++ t).
Proof.
  intros Hd.
  assert (Hsub : submitted body = Ok (PyStr [])).
  { destruct body as [v|]; [|reflexivity].
    unfold defaults_to_empty in Hd.
    unfold submitted, py_or, get_json_silent.
    destruct v as [| b | z | f | s | l | d]; try (rewrite Hd; reflexivity).
    destruct d as [|kv d]; [reflexivity|].
    cbn [truthy py_get]. rewrite Hd. reflexivity. }
  assert (Hacc : accepted body []) by (split; [exact Hsub | vm_compute; discriminate]).
  split; [exact Hsub|]. split; [exact Hacc|].
  assert (Hex : forall cwd, staged h [] cwd ->
     exists t,
       trace (run_code h body)
       = [ Makedirs (lit "tmp"); OpenW (file_path_of h);
           WriteFile (file_path_of h) []; Run (launch_cmd h cwd) 10%Z ] ++ t).
  { intros cwd Hst. rewrite (run_code_executes h body [] cwd Hacc Hst).
    unfold trace. cbn [snd staging_trace app].
    destruct (execute_trace h (launch_cmd h cwd) (container_name_of (file_id_of h)))
      as [Ht | [_ Ht]]; unfold trace in Ht; rewrite Ht; eexists; reflexivity. }
  destruct (run_code_staging h body [] Hacc) as [[cwd Hst] | (e & t & Hr & Ht)].
  - destruct (Hex cwd Hst) as [t Ht]. split; [|split; [|exact Hex]].
    + intros msg Hm. rewrite (run_code_executes h body [] cwd Hacc Hst) in Hm.
      unfold outcome in Hm. cbn [fst] in Hm.
      destruct (subprocess_run h (launch_cmd h cwd) 10) as [proc | e] eqn:E.
      * rewrite (execute_completed h _ _ proc E) in Hm. cbn [fst] in Hm.
        pose proof (classify_status proc) as Hs.
        injection Hm as Hm. rewrite Hm in Hs. discriminate.
      * destruct (is_TimeoutExpired e) eqn:He.
        -- destruct e; try discriminate.
           rewrite (execute_timeout h _ _ E) in Hm. discriminate.
        -- rewrite (execute_raise h _ _ e E He) in Hm. discriminate.
    + rewrite Ht. eexists; reflexivity.
  - split; [|split; [|exact Hex]].
    + intros msg Hm. rewrite Hr in Hm. discriminate.
    + rewrite Hr. exists t. reflexivity.
Qed.

Lemma missing_code_defaults_to_empty_witness :
  submitted (Some (PyDict [ (lit "lang", PyStr (lit "python")) ])) = Ok (PyStr []) /\
  exists t,
    trace (run_code (demo_host (exits [] [] 0))
                    (Some (PyDict [ (lit "lang", PyStr (lit "python")) ])))
    = [ Makedirs (lit "tmp"); OpenW (file_path_of (demo_host (exits [] [] 0)));
        WriteFile (file_path_of (demo_host (exits [] [] 0))) [];
        Run (launch_cmd (demo_host (exits [] [] 0)) (lit "/srv/app")) 10%Z ] ++ t.
Proof.
  destruct (missing_code_defaults_to_empty
              (demo_host (exits [] [] 0))
              (Some (PyDict [ (lit "lang", PyStr (lit "python")) ])) eq_refl)
    as (H1 & _ & _ & _ & H5).
  split; [exact H1|].
  apply H5. repeat split; reflexivity.
Defined.

(* ===================================================================== *)
(** ** Staging and launch *)
(* ===================================================================== *)

Lemma container_name_of_inj (a b : pystr) :
  container_name_of a = container_name_of b -> a = b.
Proof. unfold container_name_of. apply app_inv_head. Qed.

(** The launch command read back as docker reads it. *)
Lemma parse_launch (cname cwd file_id : pystr) :
  parse_docker_run (docker_cmd cname cwd file_id)
  = Some (Launch true (Some cname) (Some (lit "none")) (Some (lit "128m"))
                 (Some (lit "128m")) (Some (lit "64")) (Some (lit "1"))
                 [cwd ++ lit "/tmp:/scripts:ro"]
                 (lit "python:3.11-slim")
                 [lit "python"; lit "/scripts/" ++ file_id ++ lit ".py"]).
Proof. reflexivity. Qed.

(** The traces of a valid, staged request. *)
Lemma staged_trace_cases h body code cwd :
  accepted body code -> staged h code cwd ->
  trace (run_code h body) = staging_trace h code ++ [Run (launch_cmd h cwd) 10%Z] \/
  (subprocess_run h (launch_cmd h cwd) 10 = Raise TimeoutExpired /\
   trace (run_code h body)
   = staging_trace h code
     ++ [Run (launch_cmd h cwd) 10%Z;
         Run (rm_cmd (container_name_of (file_id_of h))) 5%Z]).
Proof.
  intros Hacc Hst. rewrite (run_code_executes h body code cwd Hacc Hst).
  unfold trace at 1 3. cbn [snd].
  destruct (execute_trace h (launch_cmd h cwd) (container_name_of (file_id_of h)))
    as [Ht | [Hr Ht]]; rewrite Ht; [left | right; split; [exact Hr|]]; reflexivity.
Qed.

(** C8, as stated, fails.  A string that the UTF-8 codec cannot encode (a
    lone surrogate, which a JSON escape produces) is a valid request, yet
    the write raises and no sandbox is launched, on a host where every
    system call succeeds; and on a host that cannot create the staging
    directory a valid request leaves neither an artifact nor a sandbox. *)
Lemma valid_request_without_sandbox :
  (accepted (demo_body [55296%N]) [55296%N] /\
   run_code (demo_host (exits [] [] 0)) (demo_body [55296%N])
   = (Raise UnicodeEncodeError,
      [ Makedirs (lit "tmp"); OpenW (lit "tmp/0123456789ab.py") ]) /\
   count is_write
         (trace (run_code (demo_host (exits [] [] 0)) (demo_body [55296%N]))) = 0 /\
   count is_docker_run
         (trace (run_code (demo_host (exits [] [] 0)) (demo_body [55296%N]))) = 0) /\
  (accepted (demo_body (lit "print(1)")) (lit "print(1)") /\
   run_code read_only_host (demo_body (lit "print(1)"))
   = (Raise (OSError 30), [ Makedirs (lit "tmp") ])).
Proof.
  split.
  - split; [split; [reflexivity | vm_compute; discriminate]|].
    repeat split; reflexivity.
  - split; [split; [reflexivity | vm_compute; discriminate] | reflexivity].
Qed.

(** C8, amended.  For a valid request whose staging succeeds, exactly one
    artifact is opened and written (the submitted code, at the path built
    from the token), exactly one sandbox is launched, on that artifact, and
    the name of the sandbox is ["runpy-"] followed by the token: equal tokens
    give equal names, and different tokens different names. *)
Theorem one_artifact_one_sandbox h body code cwd :
  accepted body code -> staged h code cwd ->
  count is_open (trace (run_code h body)) = 1 /\
  count is_write (trace (run_code h body)) = 1 /\
  In (WriteFile (path_join (lit "tmp") (file_id_of h ++ lit ".py")) code)
     (trace (run_code h body)) /\
  count is_docker_run (trace (run_code h body)) = 1 /\
  (exists l cmd,
     first_run (trace (run_code h body)) = Some cmd /\
     parse_docker_run cmd = Some l /\
     name l = Some (container_name_of (file_id_of h)) /\
     command l = [lit "python"; lit "/scripts/" ++ file_id_of h ++ lit ".py"]) /\
  (forall h', container_name_of (file_id_of h') = container_name_of (file_id_of h)
              <-> file_id_of h' = file_id_of h).
Proof.
  intros Hacc Hst.
  assert (Hfirst : first_run (trace (run_code h body)) = Some (launch_cmd h cwd)).
  { destruct (staged_trace_cases h body code cwd Hacc Hst) as [Ht | [_ Ht]];
      rewrite Ht; reflexivity. }
  assert (Hcounts :
    count is_open (trace (run_code h body)) = 1 /\
    count is_write (trace (run_code h body)) = 1 /\
    In (WriteFile (file_path_of h) code) (trace (run_code h body)) /\
    count is_docker_run (trace (run_code h body)) = 1).
  { destruct (staged_trace_cases h body code cwd Hacc Hst) as [Ht | [_ Ht]];
      rewrite Ht; repeat split; try reflexivity;
      unfold staging_trace; simpl; auto. }
  destruct Hcounts as (H1 & H2 & H3 & H4).
  repeat split; try assumption.
  - eexists; exists (launch_cmd h cwd). split; [exact Hfirst|].
    unfold launch_cmd. rewrite parse_launch. repeat split; reflexivity.
  - apply container_name_of_inj.
  - intros ->. reflexivity.
Qed.

Lemma one_artifact_one_sandbox_witness :
  count is_write (trace (run_code (demo_host hangs) (demo_body (lit "while True: pass")))) = 1 /\
  count is_docker_run
        (trace (run_code (demo_host hangs) (demo_body (lit "while True: pass")))) = 1.
Proof.
  destruct (one_artifact_one_sandbox
              (demo_host hangs) (demo_body (lit "while True: pass"))
              (lit "while True: pass") (lit "/srv/app"))
    as (_ & H2 & _ & H4 & _).
  - split; [reflexivity | vm_compute; discriminate].
  - repeat split; reflexivity.
  - split; assumption.
Defined.

(** C1.  Whenever a request starts a subprocess at all, the first one is
    the [docker run] launch, and docker reads from it: no network
    ([--network none]), a memory limit of [128m] with the same swap limit, a
    limit of 64 processes, one CPU, and the staging directory [<cwd>/tmp]
    bound read-only at [/scripts]; the user's file is the argument of the
    command run inside the container, so the limits are in place when it
    starts.  Any other subprocess of the request is the forced removal. *)
Theorem launch_is_confined h body cmd :
  first_run (trace (run_code h body)) = Some cmd ->
  exists cwd l,
    os_getcwd h = Ok cwd /\
    cmd = docker_cmd (container_name_of (file_id_of h)) cwd (file_id_of h) /\
    parse_docker_run cmd = Some l /\
    network l = Some (lit "none") /\
    memory l = Some (lit "128m") /\
    memory_swap l = memory l /\
    pids_limit l = Some (lit "64") /\
    cpus l = Some (lit "1") /\
    volumes l = [cwd ++ lit "/tmp" ++ lit ":/scripts" ++ lit ":ro"] /\
    command l = [lit "python"; lit "/scripts/" ++ file_id_of h ++ lit ".py"] /\
    (forall c t, In (Run c t) (trace (run_code h body)) ->
                 c = cmd \/ c = rm_cmd (container_name_of (file_id_of h))).
Proof.
  intros H.
  destruct (first_run_is_launch h body cmd H) as (code & cwd & Hacc & Hst & ->).
  exists cwd. eexists. split; [apply Hst|]. split; [reflexivity|].
  split; [unfold launch_cmd; apply parse_launch|].
  repeat split; try reflexivity.
  intros c t Hin.
  destruct (staged_trace_cases h body code cwd Hacc Hst) as [Ht | [_ Ht]];
    rewrite Ht in Hin; unfold staging_trace in Hin; simpl in Hin;
    repeat (destruct Hin as [Hin | Hin]; try discriminate; try contradiction);
    inversion Hin; auto.
Qed.

Lemma launch_is_confined_witness :
  exists l,
    parse_docker_run
      (launch_cmd (demo_host (exits [] [] 0)) (lit "/srv/app")) = Some l /\
    network l = Some (lit "none") /\
    memory_swap l = memory l /\
    volumes l = [lit "/srv/app/tmp:/scripts:ro"].
Proof.
  destruct (launch_is_confined
              (demo_host (exits [] [] 0)) (demo_body (lit "print(1)"))
              (launch_cmd (demo_host (exits [] [] 0)) (lit "/srv/app")) eq_refl)
    as (cwd & l & Hcwd & _ & Hp & Hn & _ & Hs & _ & _ & Hv & _).
  exists l. injection Hcwd as <-. repeat split; assumption.
Defined.

(* ===================================================================== *)
(** ** Timeout *)
(* ===================================================================== *)

(** C2.  When the launch is still running at the 10 second deadline, the
    view issues exactly one [docker rm -f] and it names the container the
    launch was given; the answer is status 200, read as [Timeout], with
    [output] the empty string, the fixed message as [error] and no
    [exit_code].  Nothing is assumed of the removal: whether it returns,
    times out or raises, the answer is the same and nothing is raised. *)
Theorem timeout_removes_sandbox_once h body code cwd :
  expired_run h body code cwd ->
  (exists resp,
     outcome (run_code h body) = Ok (resp, 200%Z) /\
     classification_of resp = Some Timeout /\
     field "output" resp = Some (PyStr []) /\
     field "error" resp = Some (PyStr timeout_message) /\
     field "exit_code" resp = None) /\
  count is_docker_rm (trace (run_code h body)) = 1 /\
  (exists l cname,
     parse_docker_run (launch_cmd h cwd) = Some l /\
     name l = Some cname /\
     count (is_run_of [lit "docker"; lit "rm"; lit "-f"; cname])
           (trace (run_code h body)) = 1) /\
  (forall e, subprocess_run h (rm_cmd (container_name_of (file_id_of h))) 5 = Raise e ->
             outcome (run_code h body) = Ok timeout_response).
Proof.
  intros Hexp. rewrite (run_code_expired h body code cwd Hexp).
  split; [|split; [|split]].
  - eexists. split; [reflexivity|]. repeat split; reflexivity.
  - reflexivity.
  - eexists; exists (container_name_of (file_id_of h)).
    split; [unfold launch_cmd; apply parse_launch|].
    split; [reflexivity|].
    unfold trace, count, staging_trace. cbn [snd app filter is_run_of].
    unfold launch_cmd, docker_cmd. cbn [cmd_eqb].
    replace (pystr_eqb (lit "run") (lit "rm")) with false by reflexivity.
    rewrite andb_false_r. cbn [andb].
    change (rm_cmd (container_name_of (file_id_of h)))
      with [lit "docker"; lit "rm"; lit "-f"; container_name_of (file_id_of h)].
    rewrite (proj2 (cmd_eqb_eq _ _) eq_refl). reflexivity.
  - intros e _. reflexivity.
Qed.

Lemma timeout_removes_sandbox_once_witness :
  subprocess_run (demo_host hangs) (rm_cmd (lit "runpy-0123456789ab")) 5
  = Raise (OSError 2) /\
  outcome (run_code (demo_host hangs) (demo_body (lit "while True: pass")))
  = Ok timeout_response /\
  count is_docker_rm
        (trace (run_code (demo_host hangs) (demo_body (lit "while True: pass")))) = 1.
Proof.
  destruct (timeout_removes_sandbox_once
              (demo_host hangs) (demo_body (lit "while True: pass"))
              (lit "while True: pass") (lit "/srv/app"))
    as (_ & H2 & _ & H4).
  - split; [split; [reflexivity | vm_compute; discriminate]|].
    split; [repeat split; reflexivity | reflexivity].
  - split; [reflexivity|]. split; [apply (H4 (OSError 2) eq_refl) | exact H2].
Defined.

(* ===================================================================== *)
(** ** Status of the answer *)
(* ===================================================================== *)

(** C7, as stated, fails.  A valid request whose staging succeeds can end
    without any response, which is neither a staging nor a validation
    failure: when [docker] cannot be started the launch raises [OSError],
    and when the program's output is not valid UTF-8 it raises
    [UnicodeDecodeError]; the view raises the same error. *)
Lemma launch_error_gives_no_response :
  (accepted (demo_body (lit "print(1)")) (lit "print(1)") /\
   staged (demo_host docker_missing) (lit "print(1)") (lit "/srv/app") /\
   outcome (run_code (demo_host docker_missing) (demo_body (lit "print(1)")))
   = Raise (OSError 2)) /\
  (accepted (demo_body (lit "print(1)")) (lit "print(1)") /\
   staged (demo_host undecodable_output) (lit "print(1)") (lit "/srv/app") /\
   outcome (run_code (demo_host undecodable_output) (demo_body (lit "print(1)")))
   = Raise UnicodeDecodeError).
Proof.
  split; (split; [split; [reflexivity | vm_compute; discriminate]|]);
    (split; [repeat split; reflexivity | reflexivity]).
Qed.

(** C7, amended.  For a valid, staged request whose launch returns or
    runs into the deadline, the view answers with status 200 and the
    response reads as one of the four outcomes, whether the program
    succeeded, timed out, ran out of memory or failed. *)
Theorem returned_or_expired_launch_is_answered h body code cwd :
  accepted body code -> staged h code cwd ->
  (exists proc, subprocess_run h (launch_cmd h cwd) 10 = Ok proc) \/
  subprocess_run h (launch_cmd h cwd) 10 = Raise TimeoutExpired ->
  exists resp c,
    outcome (run_code h body) = Ok (resp, 200%Z) /\
    classification_of resp = Some c /\
    In c [Success; Timeout; MemoryLimitExceeded; RuntimeError].
Proof.
  intros Hacc Hst [[proc Hr] | Hr].
  - rewrite (run_code_completed h body code cwd proc
               (conj Hacc (conj Hst Hr))).
    exists (fst (classify proc)). eexists. split; [|split].
    + unfold outcome. cbn [fst]. rewrite <- (classify_status proc).
      destruct (classify proc); reflexivity.
    + apply classification_of_classify.
    + destruct (returncode proc =? 0)%Z; [simpl; auto|].
      destruct (oom_signalled _ _); simpl; auto.
  - rewrite (run_code_expired h body code cwd (conj Hacc (conj Hst Hr))).
    exists (fst timeout_response), Timeout.
    split; [reflexivity|]. split; [reflexivity | simpl; auto].
Qed.

Lemma returned_or_expired_launch_is_answered_witness :
  exists resp c,
    outcome (run_code (demo_host hangs) (demo_body (lit "while True: pass")))
    = Ok (resp, 200%Z) /\
    classification_of resp = Some c /\
    In c [Success; Timeout; MemoryLimitExceeded; RuntimeError].
Proof.
  apply (returned_or_expired_launch_is_answered
           (demo_host hangs) (demo_body (lit "while True: pass"))
           (lit "while True: pass") (lit "/srv/app")).
  - split; [reflexivity | vm_compute; discriminate].
  - repeat split; reflexivity.
  - right. reflexivity.
Defined.

(* ===================================================================== *)
(** ** The ways through the view *)
(* ===================================================================== *)

Lemma run_code_rejected_message h body v :
  submitted body = Ok v -> rejected v ->
  run_code h body = (Ok (error_response (validation_message v) 400), []).
Proof.
  intros H Hrej. unfold run_code. rewrite py_get_pure. fold (submitted body).
  rewrite H. cbn [bind].
  destruct v; try reflexivity.
  simpl in Hrej. apply Z.gtb_lt in Hrej. rewrite Hrej. reflexivity.
Qed.

(** What is left of [run_code] once the request is accepted. *)
Lemma run_code_accepted h body code :
  accepted body code ->
  run_code h body
  = (makedirs h (lit "tmp") ;;
     write_text h (file_path_of h) code ;;
     cwd <- lift (os_getcwd h) ;;
     execute h (launch_cmd h cwd) (container_name_of (file_id_of h))).
Proof.
  intros [Hsub Hlen].
  assert (Hgt : (len code >? 5000)%Z = false)
    by (rewrite Z.gtb_ltb; apply Z.ltb_ge; exact Hlen).
  unfold run_code. rewrite py_get_pure. fold (submitted body). rewrite Hsub.
  cbn [bind]. rewrite Hgt. fold (file_id_of h). fold (file_path_of h).
  match goal with
  | |- (let '(r, t') := ?K in _) = ?R => change K with R; destruct R as [r t]
  end.
  reflexivity.
Qed.

Lemma execute_follows h cmd cname :
  (exists proc, subprocess_run h cmd 10 = Ok proc /\
                execute h cmd cname = (Ok (classify proc), [Run cmd 10%Z])) \/
  (subprocess_run h cmd 10 = Raise TimeoutExpired /\
   execute h cmd cname
   = (Ok timeout_response, [Run cmd 10%Z; Run (rm_cmd cname) 5%Z])) \/
  (exists e, subprocess_run h cmd 10 = Raise e /\ is_TimeoutExpired e = false /\
             execute h cmd cname = (Raise e, [Run cmd 10%Z])).
Proof.
  destruct (subprocess_run h cmd 10) as [proc | e] eqn:E.
  - left. exists proc. split; [reflexivity | apply execute_completed; exact E].
  - destruct (is_TimeoutExpired e) eqn:He.
    + right; left. destruct e; try discriminate.
      split; [reflexivity | apply execute_timeout; exact E].
    + right; right. exists e. split; [reflexivity|]. split; [exact He|].
      apply execute_raise; assumption.
Qed.

(** [run_code] always goes one of the ways of [run_code_path]. *)
Lemma run_code_follows_path h body : run_code_path h body (run_code h body).
Proof.
  destruct (submitted body) as [v | e] eqn:Hsub.
  2:{ rewrite (run_code_no_dict h body e Hsub). apply path_no_get. exact Hsub. }
  destruct (accepted_or_rejected body v Hsub) as [Hrej | [code [-> Hacc]]].
  { rewrite (run_code_rejected_message h body v Hsub Hrej).
    apply path_rejected; assumption. }
  destruct (os_makedirs h (lit "tmp")) as [e|] eqn:Hmk.
  { rewrite (run_code_accepted h body code Hacc). unfold makedirs. rewrite Hmk.
    apply (path_makedirs_fails h body code e); assumption. }
  destruct (os_open_w h (file_path_of h)) as [e|] eqn:Hop.
  { rewrite (run_code_accepted h body code Hacc). unfold makedirs, write_text.
    rewrite Hmk, Hop. apply (path_open_fails h body code e); assumption. }
  destruct (utf8_encodable code) eqn:Henc.
  2:{ rewrite (run_code_accepted h body code Hacc). unfold makedirs, write_text.
      rewrite Hmk, Hop, Henc. apply (path_encode_fails h body code); assumption. }
  destruct (os_write h (file_path_of h) code) as [e|] eqn:Hwr.
  { rewrite (run_code_accepted h body code Hacc). unfold makedirs, write_text.
    rewrite Hmk, Hop, Henc, Hwr. apply (path_write_fails h body code e); assumption. }
  destruct (os_getcwd h) as [cwd | e] eqn:Hcwd.
  2:{ rewrite (run_code_accepted h body code Hacc). unfold makedirs, write_text.
      rewrite Hmk, Hop, Henc, Hwr, Hcwd.
      apply (path_getcwd_fails h body code e); assumption. }
  assert (Hst : staged h code cwd) by (repeat split; assumption).
  rewrite (run_code_executes h body code cwd Hacc Hst).
  destruct (execute_follows h (launch_cmd h cwd) (container_name_of (file_id_of h)))
    as [(proc & Hr & He) | [(Hr & He) | (e & Hr & Hne & He)]]; rewrite He.
  - apply (path_completed h body code cwd proc).
    split; [exact Hacc | split; [exact Hst | exact Hr]].
  - apply (path_expired h body code cwd).
    split; [exact Hacc | split; [exact Hst | exact Hr]].
  - apply (path_launch_fails h body code cwd e); assumption.
Qed.

Lemma accepted_unique body c1 c2 : accepted body c1 -> accepted body c2 -> c1 = c2.
Proof. intros [H1 _] [H2 _]. rewrite H1 in H2. congruence. Qed.

Lemma accepted_not_rejected body code v :
  accepted body code -> submitted body = Ok v -> rejected v -> False.
Proof.
  intros [H1 Hlen] H2 Hrej. rewrite H1 in H2. injection H2 as <-.
  simpl in Hrej. lia.
Qed.

Lemma not_timeout (e : exn) : e <> TimeoutExpired -> is_TimeoutExpired e = false.
Proof. destruct e; try reflexivity. intros H. contradiction H. reflexivity. Qed.

Lemma has_surrogate_unencodable (code : pystr) (c : N) :
  In c code -> (55296 <= c <= 57343)%N -> utf8_encodable code = false.
Proof.
  intros Hin [Hlo Hhi]. unfold utf8_encodable.
  destruct (forallb (fun c0 => negb (is_surrogate c0)) code) eqn:E; [|reflexivity].
  rewrite forallb_forall in E. specialize (E c Hin).
  unfold is_surrogate in E. apply negb_true_iff, andb_false_iff in E.
  destruct E as [E | E]; apply N.leb_gt in E; lia.
Qed.

(** Case analysis on the way [run_code h body] goes. *)
Ltac ways h body :=
  let P := fresh "P" in
  let r := fresh "r" in
  let Er := fresh "Er" in
  pose proof (run_code_follows_path h body) as P;
  remember (run_code h body) as r eqn:Er;
  destruct P.

(* ===================================================================== *)
(** ** Further properties: the request body and its validation *)
(* ===================================================================== *)

(** X1.  A JSON body that is neither false in a condition nor an object
    (a non-empty array or string, a non-zero number, [true]) makes
    [data.get] raise [AttributeError]: the view raises it and has no
    effect. *)
Theorem non_object_json_raises h v :
  truthy v = true -> (forall d, v <> PyDict d) ->
  run_code h (Some v) = (Raise AttributeError, []).
Proof.
  intros Ht Hd. apply run_code_no_dict.
  unfold submitted, py_or, get_json_silent. rewrite Ht.
  destruct v; try reflexivity. exfalso. apply (Hd items). reflexivity.
Qed.

Lemma non_object_json_raises_witness :
  run_code read_only_host (Some (PyStr (lit "print(1)"))) = (Raise AttributeError, []).
Proof.
  apply (non_object_json_raises read_only_host (PyStr (lit "print(1)")));
    [reflexivity | intros d; discriminate].
Defined.

(** X2.  A ["code"] member that is present is what the view validates,
    whatever its value: it is never replaced by the default, so that an
    explicit [null] is turned away as a non-string while a missing member
    runs the empty program. *)
Theorem present_code_is_submitted_as_is d v :
  dict_lookup (lit "code") d = Some v ->
  submitted (Some (PyDict d)) = Ok v /\
  has_code_field (Some (PyDict d)) = true /\
  (forall h, rejected v ->
     run_code h (Some (PyDict d))
     = (Ok (error_response (validation_message v) 400), [])).
Proof.
  intros Hl.
  assert (Hsub : submitted (Some (PyDict d)) = Ok v).
  { unfold submitted, py_or, get_json_silent.
    destruct d as [|kv d]; [discriminate|].
    cbn [truthy py_get]. rewrite Hl. reflexivity. }
  split; [exact Hsub|]. split.
  - unfold has_code_field. rewrite Hl. reflexivity.
  - intros h Hrej. apply run_code_rejected_message; assumption.
Qed.

Lemma present_code_is_submitted_as_is_witness :
  submitted (Some (PyDict [ (lit "code", PyNone) ])) = Ok PyNone /\
  run_code (demo_host hangs) (Some (PyDict [ (lit "code", PyNone) ]))
  = (Ok (error_response (lit "code must be a string") 400), []).
Proof.
  destruct (present_code_is_submitted_as_is [ (lit "code", PyNone) ] PyNone eq_refl)
    as (H1 & _ & H3).
  split; [exact H1 | apply (H3 (demo_host hangs) I)].
Defined.

(** X3.  The view answers with status 400 exactly when the submitted
    value fails validation, and the body is then the one message of the
    test that failed: ["code must be a string"] for a non-string,
    ["Code too long (max 5000 chars)"] for a string of more than 5000
    characters.  A string of exactly 5000 characters is not turned away. *)
Theorem status_400_iff_rejected h body resp :
  outcome (run_code h body) = Ok (resp, 400%Z) <->
  exists v, submitted body = Ok v /\ rejected v /\
            resp = jsonify [ (lit "error", PyStr (validation_message v)) ].
Proof.
  split.
  - intros H. ways h body; unfold outcome in H; cbn [fst] in H; try discriminate.
    + injection H as <-. exists v. auto.
    + injection H as H. pose proof (classify_status proc) as Hs.
      rewrite H in Hs. discriminate.
  - intros (v & Hsub & Hrej & ->).
    rewrite (run_code_rejected_message h body v Hsub Hrej). reflexivity.
Qed.

(** X4.  The length test counts code points and its bound is inclusive: a
    submitted string starts staging exactly when it has at most 5000 of
    them, and is answered without any effect exactly when it has more. *)
Theorem length_bound_is_inclusive h body s :
  submitted body = Ok (PyStr s) ->
  ((len s <= 5000)%Z <-> exists t, trace (run_code h body) = Makedirs (lit "tmp") :: t) /\
  ((5000 < len s)%Z <-> trace (run_code h body) = []).
Proof.
  intros Hsub.
  destruct (Z.ltb_spec 5000 (len s)) as [Hlt | Hle].
  - rewrite (run_code_rejected_message h body (PyStr s) Hsub Hlt). split; split.
    + lia.
    + intros [t Ht]. discriminate.
    + reflexivity.
    + intros _. exact Hlt.
  - assert (Hacc : accepted body s) by (split; assumption).
    assert (Hex : exists t, trace (run_code h body) = Makedirs (lit "tmp") :: t).
    { destruct (run_code_staging h body s Hacc) as [[cwd Hst] | (e & t & Hr & _)].
      - rewrite (run_code_executes h body s cwd Hacc Hst). eexists. reflexivity.
      - rewrite Hr. exists t. reflexivity. }
    split; split.
    + intros _. exact Hex.
    + intros _. exact Hle.
    + lia.
    + intros Ht. destruct Hex as [t Hex]. rewrite Ht in Hex. discriminate.
Qed.

Lemma length_bound_is_inclusive_witness :
  (exists t, trace (run_code (demo_host hangs) (demo_body (repeat 97%N (Z.to_nat 5000))))
             = Makedirs (lit "tmp") :: t) /\
  trace (run_code (demo_host hangs) (demo_body long_code)) = [].
Proof.
  split.
  - apply (proj1 (length_bound_is_inclusive (demo_host hangs)
                    (demo_body (repeat 97%N (Z.to_nat 5000)))
                    (repeat 97%N (Z.to_nat 5000)) eq_refl)).
    vm_compute. discriminate.
  - apply (proj2 (length_bound_is_inclusive (demo_host hangs)
                    (demo_body long_code) long_code eq_refl)).
    vm_compute. reflexivity.
Defined.

(* ===================================================================== *)
(** ** Further properties: staging and launch *)
(* ===================================================================== *)

(** X5.  When staging fails for a valid request, at whichever step, the
    view raises the error instead of answering, no subprocess is started,
    and the effects are a beginning of the staging sequence that starts with
    the creation of the directory. *)
Theorem staging_failure_propagates h body code :
  accepted body code -> (forall cwd, ~ staged h code cwd) ->
  exists e t,
    outcome (run_code h body) = Raise e /\
    trace (run_code h body) = Makedirs (lit "tmp") :: t /\
    count is_run (trace (run_code h body)) = 0 /\
    prefix_of (trace (run_code h body)) (staging_trace h code).
Proof.
  intros Hacc Hns.
  ways h body.
  - destruct Hacc as [Hs _]. rewrite Hs in H. discriminate.
  - exfalso. eapply accepted_not_rejected; eassumption.
  - rewrite <- (accepted_unique body code0 code H Hacc).
    exists e. eexists. repeat split; try reflexivity.
    exists [OpenW (file_path_of h); WriteFile (file_path_of h) code0]. reflexivity.
  - rewrite <- (accepted_unique body code0 code H Hacc).
    exists e. eexists. repeat split; try reflexivity.
    exists [WriteFile (file_path_of h) code0]. reflexivity.
  - rewrite <- (accepted_unique body code0 code H Hacc).
    eexists. eexists. repeat split; try reflexivity.
    exists [WriteFile (file_path_of h) code0]. reflexivity.
  - rewrite <- (accepted_unique body code0 code H Hacc).
    exists e. eexists. repeat split; try reflexivity.
    exists []. reflexivity.
  - rewrite <- (accepted_unique body code0 code H Hacc).
    exists e. eexists. repeat split; try reflexivity.
    exists []. reflexivity.
  - destruct H as (Ha & Hst & _).
    rewrite (accepted_unique body code0 code Ha Hacc) in Hst.
    exfalso. exact (Hns cwd Hst).
  - destruct H as (Ha & Hst & _).
    rewrite (accepted_unique body code0 code Ha Hacc) in Hst.
    exfalso. exact (Hns cwd Hst).
  - rewrite (accepted_unique body code0 code H Hacc) in H0.
    exfalso. exact (Hns cwd H0).
Qed.

Lemma staging_failure_propagates_witness :
  exists e t,
    outcome (run_code read_only_host (demo_body (lit "print(1)"))) = Raise e /\
    trace (run_code read_only_host (demo_body (lit "print(1)")))
    = Makedirs (lit "tmp") :: t /\
    count is_run (trace (run_code read_only_host (demo_body (lit "print(1)")))) = 0.
Proof.
  destruct (staging_failure_propagates read_only_host (demo_body (lit "print(1)"))
              (lit "print(1)"))
    as (e & t & H1 & H2 & H3 & _).
  - split; [reflexivity | vm_compute; discriminate].
  - intros cwd (Hmk & _). discriminate Hmk.
  - exists e, t. repeat split; assumption.
Defined.

(** X6.  A valid request whose code holds a surrogate code point cannot
    be encoded as UTF-8: once the directory exists and the file is opened,
    the view raises [UnicodeEncodeError]; the artifact has been created but
    nothing is written to it, and no subprocess is started. *)
Theorem unencodable_code_leaves_empty_artifact h body code c :
  accepted body code ->
  In c code -> (55296 <= c <= 57343)%N ->
  os_makedirs h (lit "tmp") = None ->
  os_open_w h (file_path_of h) = None ->
  run_code h body
  = (Raise UnicodeEncodeError, [ Makedirs (lit "tmp"); OpenW (file_path_of h) ]).
Proof.
  intros Hacc Hin Hc Hmk Hop.
  pose proof (has_surrogate_unencodable code c Hin Hc) as Henc.
  rewrite (run_code_accepted h body code Hacc). unfold makedirs, write_text.
  rewrite Hmk, Hop, Henc. reflexivity.
Qed.

Lemma unencodable_code_leaves_empty_artifact_witness :
  run_code (demo_host hangs) (demo_body (lit "s = '" ++ [56832%N] ++ lit "'"))
  = (Raise UnicodeEncodeError,
     [ Makedirs (lit "tmp"); OpenW (lit "tmp/0123456789ab.py") ]).
Proof.
  apply (unencodable_code_leaves_empty_artifact
           (demo_host hangs) (demo_body (lit "s = '" ++ [56832%N] ++ lit "'"))
           (lit "s = '" ++ [56832%N] ++ lit "'") 56832%N).
  - split; [reflexivity | vm_compute; discriminate].
  - simpl. auto 10.
  - lia.
  - reflexivity.
  - reflexivity.
Defined.

(** X7.  When the launch itself raises anything but [TimeoutExpired] (no
    [docker] on the path, say), the view raises that error: there is no
    answer, and no removal is attempted. *)
Theorem launch_failure_propagates h body code cwd e :
  accepted body code -> staged h code cwd ->
  subprocess_run h (launch_cmd h cwd) 10 = Raise e ->
  e <> TimeoutExpired ->
  run_code h body
  = (Raise e, staging_trace h code ++ [ Run (launch_cmd h cwd) 10%Z ]) /\
  count is_docker_rm (trace (run_code h body)) = 0.
Proof.
  intros Hacc Hst Hr Hne.
  rewrite (run_code_executes h body code cwd Hacc Hst).
  rewrite (execute_raise h _ _ e Hr (not_timeout e Hne)).
  split; reflexivity.
Qed.

Lemma launch_failure_propagates_witness :
  outcome (run_code (demo_host docker_missing) (demo_body (lit "print(1)")))
  = Raise (OSError 2) /\
  count is_docker_rm
        (trace (run_code (demo_host docker_missing) (demo_body (lit "print(1)")))) = 0.
Proof.
  destruct (launch_failure_propagates
              (demo_host docker_missing) (demo_body (lit "print(1)"))
              (lit "print(1)") (lit "/srv/app") (OSError 2))
    as (H1 & H2).
  - split; [reflexivity | vm_compute; discriminate].
  - repeat split; reflexivity.
  - reflexivity.
  - discriminate.
  - rewrite H1. split; reflexivity.
Defined.

(** X8.  The launch command does not depend on the request: on one host,
    whatever two bodies are submitted, the launches they lead to are the
    same list of words, so that no part of the submitted code is ever a
    word of a command line. *)
Theorem launch_command_ignores_code h body1 body2 cmd1 cmd2 :
  first_run (trace (run_code h body1)) = Some cmd1 ->
  first_run (trace (run_code h body2)) = Some cmd2 ->
  cmd1 = cmd2.
Proof.
  intros H1 H2.
  destruct (first_run_is_launch h body1 cmd1 H1) as (c1 & cwd1 & _ & Hs1 & ->).
  destruct (first_run_is_launch h body2 cmd2 H2) as (c2 & cwd2 & _ & Hs2 & ->).
  destruct Hs1 as (_ & _ & _ & _ & Hc1). destruct Hs2 as (_ & _ & _ & _ & Hc2).
  rewrite Hc1 in Hc2. injection Hc2 as <-. reflexivity.
Qed.

Lemma launch_command_ignores_code_witness :
  first_run (trace (run_code (demo_host hangs) (demo_body (lit "print(1)"))))
  = first_run (trace (run_code (demo_host hangs)
                               (demo_body (lit "import os; os.system('id')")))).
Proof.
  exact (f_equal Some
           (launch_command_ignores_code
              (demo_host hangs) (demo_body (lit "print(1)"))
              (demo_body (lit "import os; os.system('id')"))
              (launch_cmd (demo_host hangs) (lit "/srv/app"))
              (launch_cmd (demo_host hangs) (lit "/srv/app"))
              eq_refl eq_refl)).
Defined.

(** X9.  A [docker rm] is issued only on the timeout path: the trace of a
    request holds one exactly when the launch of a valid, staged request
    outlived its deadline, and holds none otherwise. *)
Theorem removal_only_after_timeout h body :
  (count is_docker_rm (trace (run_code h body)) = 1 <->
   exists code cwd, expired_run h body code cwd) /\
  (count is_docker_rm (trace (run_code h body)) = 0 \/
   count is_docker_rm (trace (run_code h body)) = 1).
Proof.
  ways h body; unfold trace; cbn [snd];
    try (split; [split; [intros Hc; discriminate Hc|] | left; reflexivity]).
  - intros (c & w & Ha & _). destruct Ha as [Hs _]. rewrite Hs in H. discriminate.
  - intros (c & w & Ha & _). exfalso. eapply accepted_not_rejected; eassumption.
  - intros (c & w & Ha & Hst & _). destruct Hst as (Hmk & _).
    rewrite Hmk in H0. discriminate.
  - intros (c & w & Ha & Hst & _). destruct Hst as (_ & Hop & _).
    rewrite Hop in H1. discriminate.
  - intros (c & w & Ha & Hst & _). destruct Hst as (_ & _ & Henc & _).
    rewrite (accepted_unique body c code Ha H) in Henc.
    rewrite Henc in H2. discriminate.
  - intros (c & w & Ha & Hst & _). destruct Hst as (_ & _ & _ & Hwr & _).
    rewrite (accepted_unique body c code Ha H) in Hwr.
    rewrite Hwr in H3. discriminate.
  - intros (c & w & Ha & Hst & _). destruct Hst as (_ & _ & _ & _ & Hcwd).
    rewrite Hcwd in H4. discriminate.
  - intros (c & w & Ha & Hst & Hr). destruct H as (_ & Hst' & Hr').
    destruct Hst as (_ & _ & _ & _ & Hc1). destruct Hst' as (_ & _ & _ & _ & Hc2).
    rewrite Hc1 in Hc2. injection Hc2 as ->. rewrite Hr in Hr'. discriminate.
  - split; [split; [intros _; eauto | intros _; reflexivity] | right; reflexivity].
  - intros (c & w & Ha & Hst & Hr).
    destruct Hst as (_ & _ & _ & _ & Hc1). destruct H0 as (_ & _ & _ & _ & Hc2).
    rewrite Hc1 in Hc2. injection Hc2 as ->. rewrite Hr in H1.
    injection H1 as <-. discriminate.
Qed.

(* ===================================================================== *)
(** ** Further properties: what a client can rely on in an answer *)
(* ===================================================================== *)

Lemma classify_cases (proc : completed) :
  (returncode proc = 0%Z /\
   classify proc
   = (jsonify [ (lit "output", PyStr (rstrip_nl (or_empty (stdout proc))));
                (lit "error", PyStr (lit "")) ], 200%Z)) \/
  (returncode proc <> 0%Z /\
   oom_signalled (returncode proc) (or_empty (stderr proc)) = true /\
   classify proc
   = (jsonify [ (lit "output", PyStr (rstrip_nl (or_empty (stdout proc))));
                (lit "error", PyStr oom_message) ], 200%Z)) \/
  (returncode proc <> 0%Z /\
   oom_signalled (returncode proc) (or_empty (stderr proc)) = false /\
   classify proc
   = (jsonify [ (lit "output", PyStr (rstrip_nl (or_empty (stdout proc))));
                (lit "error", PyStr (strip (or_empty (stderr proc))));
                (lit "exit_code", PyInt (returncode proc)) ], 200%Z)).
Proof.
  destruct (Z.eq_dec (returncode proc) 0) as [H0 | H0].
  - left. split; [exact H0 | apply classify_zero; exact H0].
  - destruct (oom_signalled (returncode proc) (or_empty (stderr proc))) eqn:E.
    + right; left. repeat split; auto using classify_oom.
    + right; right. repeat split; auto using classify_other.
Qed.

Lemma edges_kept_sound (e : pystr) : edges_kept e = true -> no_edge_space e.
Proof.
  intros H. split.
  - intros c r ->. simpl in H. apply andb_true_iff in H as [H _].
    apply negb_true_iff in H. exact H.
  - intros c r ->. destruct r as [|x r].
    + simpl in H. apply andb_true_iff in H as [H _].
      apply negb_true_iff in H. exact H.
    + change ((x :: r) ++ [c]) with (x :: (r ++ [c])) in H.
      unfold edges_kept in H. apply andb_true_iff in H as [_ H].
      change (x :: (r ++ [c])) with ((x :: r) ++ [c]) in H.
      rewrite last_last in H. apply negb_true_iff in H. exact H.
Qed.

Lemma strip_no_edge_space (s : pystr) : no_edge_space (strip s).
Proof.
  destruct (strip_spec s) as (hd & tl & _ & _ & _ & H1 & H2). split; assumption.
Qed.



Lemma oom_signalled_false (rc : Z) (err : pystr) :
  oom_signalled rc err = false ->
  rc <> 137%Z /\ forall m, In m oom_markers -> contains m err = false.
Proof.
  unfold oom_signalled, oom_exit_code. intros H.
  apply orb_false_iff in H as [Hrc Hm]. split.
  - apply Z.eqb_neq. exact Hrc.
  - intros m Hin. destruct (contains m err) eqn:E; [|reflexivity].
    assert (existsb (fun m0 => contains m0 err) oom_markers = true)
      by (apply existsb_exists; exists m; auto).
    congruence.
Qed.

(** X10.  An answer has status 400 or 200 and nothing else.  With 400 no
    effect took place and the body has an [error] and no [output]; with 200
    the sandbox was launched exactly once and the body has an [output] and
    an [error], both strings. *)
Theorem response_status_and_shape h body resp status :
  outcome (run_code h body) = Ok (resp, status) ->
  (status = 400%Z /\ trace (run_code h body) = [] /\
   field "output" resp = None /\
   exists msg, field "error" resp = Some (PyStr msg)) \/
  (status = 200%Z /\ count is_docker_run (trace (run_code h body)) = 1 /\
   exists out err,
     field "output" resp = Some (PyStr out) /\ field "error" resp = Some (PyStr err)).
Proof.
  intros H. ways h body; unfold outcome in H; cbn [fst] in H; try discriminate.
  - injection H as <- <-. left. repeat split; try reflexivity. eexists; reflexivity.
  - injection H as H. right.
    destruct (classify_cases proc) as [[_ Hc] | [(_ & _ & Hc) | (_ & _ & Hc)]];
      rewrite Hc in H; injection H as <- <-;
      (split; [reflexivity|]); (split; [reflexivity|]);
      eexists; eexists; split; reflexivity.
  - injection H as <- <-. right.
    split; [reflexivity|]. split; [reflexivity|].
    eexists; eexists; split; reflexivity.
Qed.

Lemma response_status_and_shape_witness :
  snd timeout_response = 200%Z /\
  count is_docker_run
        (trace (run_code (demo_host hangs) (demo_body (lit "while True: pass")))) = 1.
Proof.
  destruct (response_status_and_shape
              (demo_host hangs) (demo_body (lit "while True: pass"))
              (fst timeout_response) (snd timeout_response) eq_refl)
    as [(H & _) | (H1 & H2 & _)].
  - discriminate H.
  - split; assumption.
Defined.

(** X11.  An answer carries an [exit_code] only for a runtime error: the
    value is then the exit code of the launch, an integer that is neither 0
    nor 137, and the status is 200. *)
Theorem exit_code_only_for_runtime_errors h body resp status v :
  outcome (run_code h body) = Ok (resp, status) ->
  field "exit_code" resp = Some v ->
  exists rc,
    v = PyInt rc /\ rc <> 0%Z /\ rc <> 137%Z /\ status = 200%Z /\
    classification_of resp = Some RuntimeError /\
    exists code cwd proc,
      completed_run h body code cwd proc /\ returncode proc = rc.
Proof.
  intros H Hv. ways h body; unfold outcome in H; cbn [fst] in H; try discriminate.
  - injection H as <- <-. discriminate Hv.
  - injection H as H.
    destruct (classify_cases proc) as [[_ Hc] | [(_ & _ & Hc) | (Hrc & Hoom & Hc)]];
      rewrite Hc in H; injection H as <- <-; try discriminate Hv.
    injection Hv as <-. exists (returncode proc).
    destruct (oom_signalled_false _ _ Hoom) as [H137 _].
    repeat split; auto. exists code, cwd, proc. split; [assumption | reflexivity].
  - injection H as <- <-. discriminate Hv.
Qed.

Lemma exit_code_only_for_runtime_errors_witness :
  exists rc,
    PyInt 1 = PyInt rc /\ rc <> 0%Z /\ rc <> 137%Z.
Proof.
  destruct (exit_code_only_for_runtime_errors
              (demo_host (exits [] (lit "NameError: x") 1)) (demo_body (lit "x"))
              (jsonify [ (lit "output", PyStr []);
                         (lit "error", PyStr (lit "NameError: x"));
                         (lit "exit_code", PyInt 1) ])
              200%Z (PyInt 1) eq_refl eq_refl)
    as (rc & H1 & H2 & H3 & _).
  exists rc. repeat split; assumption.
Defined.



(** X13.  The [output] of an answer never ends with a line feed (on a
    timeout it is empty): whatever the program printed, the client gets it
    without the line feeds at its end. *)
Theorem output_never_ends_with_line_feed h body resp status out :
  outcome (run_code h body) = Ok (resp, status) ->
  field "output" resp = Some (PyStr out) ->
  forall r c, out = r ++ [c] -> c <> newline.
Proof.
  intros H Ho r c Hlast.
  ways h body; unfold outcome in H; cbn [fst] in H; try discriminate.
  - injection H as <- <-. discriminate Ho.
  - injection H as H.
    destruct (rstrip_nl_spec (or_empty (stdout proc))) as [k [_ Hk]].
    destruct (classify_cases proc) as [[_ Hc] | [(_ & _ & Hc) | (_ & _ & Hc)]];
      rewrite Hc in H; injection H as <- <-; injection Ho as <-;
      exact (Hk r c Hlast).
  - injection H as <- <-. injection Ho as <-. destruct r; discriminate Hlast.
Qed.

Lemma output_never_ends_with_line_feed_witness :
  rstrip_nl (lit "a" ++ [newline; newline]) = lit "a" /\
  (forall r c, lit "a" = r ++ [c] -> c <> newline).
Proof.
  split; [reflexivity|].
  apply (output_never_ends_with_line_feed
           (demo_host (exits (lit "a" ++ [newline; newline]) [] 0))
           (demo_body (lit "print('a'); print()"))
           (jsonify [ (lit "output", PyStr (lit "a")); (lit "error", PyStr []) ])
           200%Z (lit "a") eq_refl eq_refl).
Defined.

(** X14.  The [error] of an answer, of either status, has no white space
    at its ends: it is the empty string, one of the fixed messages, or the
    stripped error stream of the program. *)
Theorem error_text_has_no_edge_space h body resp status e :
  outcome (run_code h body) = Ok (resp, status) ->
  field "error" resp = Some (PyStr e) ->
  no_edge_space e.
Proof.
  intros H He.
  ways h body; unfold outcome in H; cbn [fst] in H; try discriminate.
  - injection H as <- <-. injection He as <-.
    apply edges_kept_sound. destruct v; reflexivity.
  - injection H as H.
    destruct (classify_cases proc) as [[_ Hc] | [(_ & _ & Hc) | (_ & _ & Hc)]];
      rewrite Hc in H; injection H as <- <-; injection He as <-.
    + apply edges_kept_sound. reflexivity.
    + apply edges_kept_sound. reflexivity.
    + apply strip_no_edge_space.
  - injection H as <- <-. injection He as <-. apply edges_kept_sound. reflexivity.
Qed.

Lemma error_text_has_no_edge_space_witness : no_edge_space (lit "NameError: x").
Proof.
  apply (error_text_has_no_edge_space
           (demo_host (exits [] ([32%N] ++ lit "NameError: x" ++ [newline]) 1))
           (demo_body (lit "x"))
           (jsonify [ (lit "output", PyStr []);
                      (lit "error", PyStr (lit "NameError: x"));
                      (lit "exit_code", PyInt 1) ])
           200%Z (lit "NameError: x") eq_refl eq_refl).
Defined.

(* ===================================================================== *)
(** ** Further properties: tokens, paths and the order of effects *)
(* ===================================================================== *)

Lemma path_join_tmp (b : pystr) :
  path_join (lit "tmp") b = if startswith (lit "/") b then b else lit "tmp/" ++ b.
Proof. unfold path_join. destruct (startswith (lit "/") b); reflexivity. Qed.

Lemma path_join_tmp_inj (a b : pystr) :
  path_join (lit "tmp") a = path_join (lit "tmp") b -> a = b.
Proof.
  rewrite !path_join_tmp.
  destruct (startswith (lit "/") a) eqn:Ea, (startswith (lit "/") b) eqn:Eb; intros H.
  - exact H.
  - subst a. discriminate Ea.
  - subst b. discriminate Eb.
  - apply app_inv_head in H. exact H.
Qed.

Lemma hex_digit_is_no_slash (c : N) : is_hex_digit c = true -> (47 =? c)%N = false.
Proof.
  unfold is_hex_digit. intros H. apply N.eqb_neq. intros <-. discriminate H.
Qed.

(** X15.  The artifact path and the launch command tell tokens apart: two
    hosts give a request the same artifact path only when they give it the
    same token, and likewise for the launch command, whatever the working
    directories.  Requests with different tokens never share a file or a
    container. *)
Theorem distinct_tokens_distinct_artifacts h1 h2 :
  (file_path_of h1 = file_path_of h2 <-> file_id_of h1 = file_id_of h2) /\
  (forall cwd1 cwd2,
     launch_cmd h1 cwd1 = launch_cmd h2 cwd2 -> file_id_of h1 = file_id_of h2).
Proof.
  split; [split|].
  - unfold file_path_of. intros H. apply path_join_tmp_inj in H.
    apply app_inv_tail in H. exact H.
  - unfold file_path_of. intros ->. reflexivity.
  - intros cwd1 cwd2 H. unfold launch_cmd, docker_cmd in H.
    injection H. intros. assumption.
Qed.

(** X16.  On a host whose token is 32 hexadecimal digits, as
    [uuid4().hex] always is, the token of a request is its first 12 digits,
    the artifact is the file [tmp/<token>.py], inside the staging directory,
    and the script the container is told to run is the file of the same name
    under the mount point [/scripts]. *)
Theorem well_formed_token_paths h :
  well_formed_token h ->
  List.length (file_id_of h) = 12 /\
  forallb is_hex_digit (file_id_of h) = true /\
  file_path_of h = lit "tmp/" ++ file_id_of h ++ lit ".py" /\
  (forall cwd,
     last (launch_cmd h cwd) [] = lit "/scripts/" ++ file_id_of h ++ lit ".py").
Proof.
  intros [Hlen Hhex].
  assert (Hl : List.length (file_id_of h) = 12).
  { unfold file_id_of, slice_to. rewrite length_firstn, Hlen. reflexivity. }
  assert (Hh : forallb is_hex_digit (file_id_of h) = true).
  { rewrite <- (firstn_skipn 12 (uuid4_hex h)) in Hhex.
    rewrite forallb_app in Hhex. apply andb_true_iff in Hhex as [Hhex _].
    exact Hhex. }
  split; [exact Hl|]. split; [exact Hh|]. split.
  - unfold file_path_of. rewrite path_join_tmp.
    destruct (file_id_of h) as [|c rest]; [discriminate Hl|].
    cbn [forallb] in Hh. apply andb_true_iff in Hh as [Hc _].
    change (startswith (lit "/") ((c :: rest) ++ lit ".py")) with ((47 =? c)%N && true).
    rewrite (hex_digit_is_no_slash c Hc). reflexivity.
  - intros cwd. reflexivity.
Qed.

Lemma well_formed_token_paths_witness :
  file_path_of (demo_host hangs) = lit "tmp/0123456789ab.py" /\
  last (launch_cmd (demo_host hangs) (lit "/srv/app")) []
  = lit "/scripts/0123456789ab.py".
Proof.
  destruct (well_formed_token_paths (demo_host hangs)) as (_ & _ & H3 & H4).
  - split; reflexivity.
  - split; [exact H3 | exact (H4 (lit "/srv/app"))].
Defined.

(** X17.  The effects of a request always come in one order, each at most
    once: the directory, the opening of the artifact, the write of the
    submitted code, the launch, the removal.  The trace of a request is
    empty or a beginning of that sequence. *)
Theorem effects_come_in_order h body :
  trace (run_code h body) = [] \/
  exists code, accepted body code /\
               prefix_of (trace (run_code h body)) (full_trace h code).
Proof.
  ways h body; unfold trace; cbn [snd]; try (left; reflexivity); right.
  - exists code. split; [assumption|]. unfold prefix_of, full_trace, staging_trace.
    eexists. cbn [app]. reflexivity.
  - exists code. split; [assumption|]. unfold prefix_of, full_trace, staging_trace.
    eexists. cbn [app]. reflexivity.
  - exists code. split; [assumption|]. unfold prefix_of, full_trace, staging_trace.
    eexists. cbn [app]. reflexivity.
  - exists code. split; [assumption|]. unfold prefix_of, full_trace.
    eexists. reflexivity.
  - exists code. split; [assumption|]. unfold prefix_of, full_trace.
    rewrite H4. exists []. reflexivity.
  - destruct H as (Ha & Hst & _). exists code. split; [assumption|].
    destruct Hst as (_ & _ & _ & _ & Hcwd).
    unfold prefix_of, full_trace. rewrite Hcwd.
    exists [Run (rm_cmd (container_name_of (file_id_of h))) 5%Z].
    rewrite <- app_assoc. reflexivity.
  - destruct H as (Ha & Hst & _). exists code. split; [assumption|].
    destruct Hst as (_ & _ & _ & _ & Hcwd).
    unfold prefix_of, full_trace. rewrite Hcwd.
    exists []. rewrite app_nil_r. reflexivity.
  - exists code. split; [assumption|].
    destruct H0 as (_ & _ & _ & _ & Hcwd).
    unfold prefix_of, full_trace. rewrite Hcwd.
    exists [Run (rm_cmd (container_name_of (file_id_of h))) 5%Z].
    rewrite <- app_assoc. reflexivity.
Qed.

(** X18.  The out-of-memory test on the error stream is a search for a
    substring: a completed run reads as [MemoryLimitExceeded] exactly when
    its exit code is not 0 and either is 137 or one of the three markers
    occurs somewhere in stderr, with the same letter case. *)
Theorem memory_limit_test_is_substring_search (proc : completed) :
  classification_of (fst (classify proc)) = Some MemoryLimitExceeded <->
  returncode proc <> 0%Z /\
  (returncode proc = 137%Z \/
   exists m pre post,
     In m oom_markers /\ or_empty (stderr proc) = pre ++ m ++ post).
Proof.
  rewrite classification_of_classify.
  assert (Hoom : oom_signalled (returncode proc) (or_empty (stderr proc)) = true <->
                 (returncode proc = 137%Z \/
                  exists m pre post,
                    In m oom_markers /\ or_empty (stderr proc) = pre ++ m ++ post)).
  { unfold oom_signalled, oom_exit_code.
    rewrite orb_true_iff, Z.eqb_eq, existsb_exists. split.
    - intros [H | (m & Hin & Hc)]; [left; exact H | right].
      apply contains_spec in Hc as (pre & post & Hs). exists m, pre, post. auto.
    - intros [H | (m & pre & post & Hin & Hs)]; [left; exact H | right].
      exists m. split; [exact Hin|]. apply contains_spec. eauto. }
  destruct (Z.eqb_spec (returncode proc) 0) as [H0 | H0].
  - split; [discriminate | intros [H _]; contradiction].
  - destruct (oom_signalled (returncode proc) (or_empty (stderr proc))).
    + split; [intros _; split; [exact H0 | apply Hoom; reflexivity] | reflexivity].
    + split; [discriminate|]. intros [_ H]. apply Hoom in H. discriminate.
Qed.

Lemma submitted_raises body e :
  submitted body = Raise e ->
  e = AttributeError /\
  exists v, body = Some v /\ truthy v = true /\ forall d, v <> PyDict d.
Proof.
  unfold submitted, py_or, get_json_silent.
  destruct body as [v|]; [|discriminate].
  destruct (truthy v) eqn:Ht; [|discriminate].
  destruct v; try (intros H; injection H as <-; split; [reflexivity|];
                   eexists; split; [reflexivity|]; split; [exact Ht|];
                   intros d; discriminate).
  cbn [py_get]. destruct (dict_lookup (lit "code") items); discriminate.
Qed.

Lemma post_run_returned h body : post_run h (Ok body) = run_code h body.
Proof.
  unfold post_run, get_json, lift, bind. destruct (run_code h body). reflexivity.
Qed.

(** X19.  An error leaves the view from four of its calls only, and in
    every other case the view answers: from [get_json], whatever it raises
    (no effect); from [data.get], an [AttributeError], when the body is a
    JSON value that is neither false nor an object (no effect); from a
    staging call of a valid request (no subprocess is started); or from the
    launch, when it raises something other than [TimeoutExpired].  A timeout
    of the launch and any failure of the removal never leave the view. *)
Theorem raised_errors h req e :
  outcome (post_run h req) = Raise e ->
  (req = Raise e /\ trace (post_run h req) = []) \/
  (exists body,
     req = Ok body /\
     ((e = AttributeError /\ trace (post_run h req) = [] /\
       exists v, body = Some v /\ truthy v = true /\ forall d, v <> PyDict d) \/
      (exists code,
         accepted body code /\ (forall cwd, ~ staged h code cwd) /\
         count is_run (trace (post_run h req)) = 0) \/
      (exists code cwd,
         accepted body code /\ staged h code cwd /\
         subprocess_run h (launch_cmd h cwd) 10 = Raise e /\
         e <> TimeoutExpired))).
Proof.
  destruct req as [body | e'].
  2:{ intros H. left. injection H as <-. split; reflexivity. }
  rewrite post_run_returned. intros H. right. exists body. split; [reflexivity|].
  ways h body; unfold outcome in H; cbn [fst] in H; try discriminate;
    injection H as <-.
  - left. destruct (submitted_raises body e0 H0) as [-> Hv]. auto.
  - right; left. exists code. split; [assumption|]. split; [|reflexivity].
    intros cwd (Hmk & _). rewrite Hmk in H1. discriminate.
  - right; left. exists code. split; [assumption|]. split; [|reflexivity].
    intros cwd (_ & Hop & _). rewrite Hop in H2. discriminate.
  - right; left. exists code. split; [assumption|]. split; [|reflexivity].
    intros cwd (_ & _ & Henc & _). rewrite Henc in H3. discriminate.
  - right; left. exists code. split; [assumption|]. split; [|reflexivity].
    intros cwd (_ & _ & _ & Hwr & _). rewrite Hwr in H4. discriminate.
  - right; left. exists code. split; [assumption|]. split; [|reflexivity].
    intros cwd (_ & _ & _ & _ & Hcwd). rewrite Hcwd in H5. discriminate.
  - right; right. exists code, cwd.
    split; [exact H0|]. split; [exact H1|]. split; [exact H2|].
    intros ->. discriminate.
Qed.

Lemma raised_errors_witness :
  trace (post_run (demo_host hangs) (Raise RecursionError)) = [] /\
  exists code,
    accepted (demo_body (lit "print(1)")) code /\
    count is_run (trace (post_run read_only_host (Ok (demo_body (lit "print(1)"))))) = 0.
Proof.
  split.
  - destruct (raised_errors (demo_host hangs) (Raise RecursionError) RecursionError
                eq_refl)
      as [(_ & Ht) | (body & Hb & _)]; [exact Ht | discriminate Hb].
  - destruct (raised_errors read_only_host (Ok (demo_body (lit "print(1)")))
                (OSError 30) eq_refl)
      as [(Hb & _) | (body & Hb & [(H & _) | [(code & Ha & _ & Hc)
                                            | (code & cwd & _ & (Hmk & _) & _)]])].
    + discriminate Hb.
    + discriminate H.
    + injection Hb as <-. exists code. split; assumption.
    + discriminate Hmk.
Defined.
